(** * Smart Study Research Assistant: the academic gate and the reply pipeline

    A shallow embedding of [backend/services/gemini_client.py]
    ([GeminiService]), of the message route of [backend/routes/chat.py]
    ([send_message]) together with the part of
    [backend/services/supabase_client.py] that route goes through, of
    [backend/services/file_processor.py] ([FileProcessor]) and of the
    account routes of [backend/routes/auth.py] with the user and reset-token
    operations of [SupabaseService].

    Text is modelled by [string]: a Python [str] whose characters lie in the
    8-bit range (code points 0 to 255), on which [str.lower], [str.strip] and
    the [re] character classes are the tables written out below.  Python
    integers are [Z]. *)

From Stdlib Require Import List Bool Arith ZArith Lia Ascii String DecimalString.
Import ListNotations.
Local Open Scope string_scope.
Local Open Scope nat_scope.

(** ** Python string primitives *)

Definition code (c : ascii) : nat := nat_of_ascii c.

Definition between (lo hi : nat) (c : ascii) : bool :=
  (lo <=? code c) && (code c <=? hi).

Definition nl : string := String (ascii_of_nat 10) "".
Definition dq : string := String (ascii_of_nat 34) "".

(** [str.lower] on one character: A-Z and the capital letters of the upper
    half (U+00C0 to U+00DE, the multiplication sign U+00D7 apart) move 32 up
    to their small letters. *)
Definition is_capital (c : ascii) : bool :=
  between 65 90 c || (between 192 222 c && negb (code c =? 215)).

Definition lower_char (c : ascii) : ascii :=
  if is_capital c then ascii_of_nat (code c + 32) else c.

Fixpoint lower (s : string) : string :=
  match s with
  | "" => ""
  | String c t => String (lower_char c) (lower t)
  end.

(** [str.upper] on one character.  The sharp s (U+00DF) becomes two
    letters.  The capitals of the micro sign (U+00B5) and of y with diaeresis
    (U+00FF) are U+039C and U+0178, beyond the 8-bit range: the two
    characters are kept, which a comparison with an ASCII literal cannot
    tell from their capitals. *)
Definition upper_char (c : ascii) : string :=
  if between 97 122 c || (between 224 254 c && negb (code c =? 247))
  then String (ascii_of_nat (code c - 32)) ""
  else if code c =? 223 then "SS"
  else String c "".

Fixpoint upper (s : string) : string :=
  match s with
  | "" => ""
  | String c t => upper_char c ++ upper t
  end.

(** [str.isspace], which is also the class [\s] of [re] on [str]. *)
Definition is_space (c : ascii) : bool :=
  between 9 13 c || between 28 32 c || (code c =? 133) || (code c =? 160).

Fixpoint lstrip (s : string) : string :=
  match s with
  | "" => ""
  | String c t => if is_space c then lstrip t else s
  end.

Fixpoint rstrip (s : string) : string :=
  match s with
  | "" => ""
  | String c t =>
      match rstrip t with
      | "" => if is_space c then "" else String c ""
      | t' => String c t'
      end
  end.

(** [s.strip()] *)
Definition strip (s : string) : string := rstrip (lstrip s).

Fixpoint take (n : nat) (s : string) : string :=
  match n, s with
  | S n', String c t => String c (take n' t)
  | _, _ => ""
  end.

Fixpoint drop (n : nat) (s : string) : string :=
  match n, s with
  | S n', String _ t => drop n' t
  | _, _ => s
  end.

(** A slice bound [k] of a sequence of length [len]: a negative bound counts
    from the end and stops at 0; a bound past the end is cut by [take],
    [firstn] and [skipn]. *)
Definition slice_index (len : nat) (k : Z) : nat :=
  if (k <? 0)%Z then Z.to_nat (Z.of_nat len + k) else Z.to_nat k.

(** [s[:k]] *)
Definition str_slice_to (s : string) (k : Z) : string :=
  take (slice_index (String.length s) k) s.


Definition list_slice_from {A} (l : list A) (k : Z) : list A :=
  skipn (slice_index (List.length l) k) l.

(** [len(s)] as a Python integer *)
Definition len (s : string) : Z := Z.of_nat (String.length s).

(** [needle in hay] *)
Fixpoint str_in (needle hay : string) : bool :=
  if prefix needle hay then true
  else match hay with
       | "" => false
       | String _ t => str_in needle t
       end.

(** [str(n)] for an integer *)
Definition str_of_int (n : Z) : string := NilEmpty.string_of_int (Z.to_int n).

(** ** The fragment of [re] the classifier's patterns are written in

    A pattern is a sequence of atoms; [re.search] asks whether some position
    of the text starts a match, so only the existence of a match matters and
    backtracking order does not. *)

Inductive atom : Type :=
| WordBoundary                   (* \b *)
| OneOf (words : list string)    (* (w1|w2|...), or a literal word *)
| Spaces                         (* \s+ *)
| AnyStar.                       (* .* *)

Definition pattern : Type := list atom.

(** The class [\w] of [re] on [str], 8-bit range. *)
Definition is_word_char (c : ascii) : bool :=
  between 48 57 c || between 65 90 c || (code c =? 95) || between 97 122 c
  || (code c =? 170) || between 178 179 c || (code c =? 181)
  || between 185 186 c || between 188 190 c
  || (between 192 255 c && negb (code c =? 215) && negb (code c =? 247)).

Definition word_before (prev : option ascii) : bool :=
  match prev with Some c => is_word_char c | None => false end.

Definition word_after (s : string) : bool :=
  match s with String c _ => is_word_char c | "" => false end.

(** [\b]: exactly one side of the position is a word character. *)
Definition at_boundary (prev : option ascii) (s : string) : bool :=
  xorb (word_before prev) (word_after s).

Fixpoint last_char (w : string) (prev : option ascii) : option ascii :=
  match w with
  | "" => prev
  | String c t => last_char t (Some c)
  end.

(** [.*] followed by the continuation [k]; [.] refuses the line feed. *)
Fixpoint any_then (k : option ascii -> string -> bool)
    (prev : option ascii) (s : string) : bool :=
  if k prev s then true
  else match s with
       | "" => false
       | String c t => if code c =? 10 then false else any_then k (Some c) t
       end.

(** [\s*] followed by [k]. *)
Fixpoint spaces_then (k : option ascii -> string -> bool)
    (prev : option ascii) (s : string) : bool :=
  if k prev s then true
  else match s with
       | "" => false
       | String c t => if is_space c then spaces_then k (Some c) t else false
       end.

Fixpoint match_here (p : pattern) : option ascii -> string -> bool :=
  match p with
  | [] => fun _ _ => true
  | a :: p' =>
      let k := match_here p' in
      match a with
      | WordBoundary => fun prev s =>
          if at_boundary prev s then k prev s else false
      | OneOf words => fun prev s =>
          existsb (fun w => if prefix w s
                            then k (last_char w prev) (drop (String.length w) s)
                            else false)
                  words
      | Spaces => fun _ s =>
          match s with
          | "" => false
          | String c t => if is_space c then spaces_then k (Some c) t else false
          end
      | AnyStar => any_then k
      end
  end.

Fixpoint search_from (p : pattern) (prev : option ascii) (s : string) : bool :=
  if match_here p prev s then true
  else match s with
       | "" => false
       | String c t => search_from p (Some c) t
       end.

(** [re.search(pattern, s)] is not [None] *)
Definition re_search (p : pattern) (s : string) : bool := search_from p None s.

(** ** [GeminiService.is_academic_question] *)

Definition academic_keywords : list string :=
  [ "research"; "study"; "analysis"; "theory"; "hypothesis"; "methodology";
    "literature"; "academic"; "scholarly"; "scientific"; "experiment";
    "data"; "findings"; "conclusion"; "abstract"; "thesis"; "dissertation";
    "journal"; "publication"; "citation"; "reference"; "bibliography";
    "education"; "learning"; "course"; "curriculum"; "syllabus";
    "concept"; "principle"; "framework"; "model"; "paradigm" ].

Definition non_academic_keywords : list string :=
  [ "entertainment"; "movie"; "game"; "music"; "celebrity"; "gossip";
    "shopping"; "recipe"; "cooking"; "fashion"; "sports"; "weather";
    "personal"; "relationship"; "dating"; "social media"; "meme" ].

Definition academic_patterns : list pattern :=
  [ (* \b(what|how|why|when|where)\s+(is|are|does|do|did|can|could|would|should)\b.*\b(concept|theory|principle|method|approach|framework)\b *)
    [ WordBoundary; OneOf ["what"; "how"; "why"; "when"; "where"]; Spaces;
      OneOf ["is"; "are"; "does"; "do"; "did"; "can"; "could"; "would"; "should"];
      WordBoundary; AnyStar; WordBoundary;
      OneOf ["concept"; "theory"; "principle"; "method"; "approach"; "framework"];
      WordBoundary ];
    (* \bexplain\s+(the|this|that|how|why)\b *)
    [ WordBoundary; OneOf ["explain"]; Spaces;
      OneOf ["the"; "this"; "that"; "how"; "why"]; WordBoundary ];
    (* \b(analyze|examine|discuss|evaluate|compare|contrast|critique)\b *)
    [ WordBoundary;
      OneOf ["analyze"; "examine"; "discuss"; "evaluate"; "compare"; "contrast"; "critique"];
      WordBoundary ];
    (* \b(according to|based on|as mentioned in|as stated in)\b.*\b(document|paper|text|study|research)\b *)
    [ WordBoundary;
      OneOf ["according to"; "based on"; "as mentioned in"; "as stated in"];
      WordBoundary; AnyStar; WordBoundary;
      OneOf ["document"; "paper"; "text"; "study"; "research"];
      WordBoundary ] ].

Definition is_academic_question (question : string) : bool :=
  let question_lower := lower question in
  if existsb (fun keyword => str_in keyword question_lower) non_academic_keywords
  then false
  else if existsb (fun keyword => str_in keyword question_lower) academic_keywords
  then true
  else if existsb (fun p => re_search p question_lower) academic_patterns
  then true
  else true.

(** ** The outside world

    Two things lie outside the program: the language model behind
    [self.model.generate_content], and the hosted database behind
    [self.service_client].  A call of the model either returns a reply whose
    [text] can be read, or raises.  The model may answer differently each
    time: its answer is a function of the prompts it has been sent so far
    and of the prompt at hand, and since every call lengthens that log, any
    sequence of answers in one run is the run of some such function.  A
    request to the database either goes through or raises; [db_fault n] is
    the text of the exception the [n]-th request raises, if it does. *)

Inductive outcome : Type :=
| Reply (text : string)
| Failure (err : string).

(** rows of the tables [messages], [chats] and [files]; a chat history is a
    list of [messages] rows, of which the prompt reads ['role'] and
    ['content'].  The fields carry the column names after the table's
    initial. *)
Record message : Type := mkMessage
  { m_chat_id : string; m_content : string; m_role : string;
    m_message_order : Z }.

Record chat : Type := mkChat
  { c_id : string; c_user_id : string; c_title : string }.

Record file_record : Type := mkFile
  { f_chat_id : string; f_user_id : string; f_created_at : Z;
    f_processed_content : option string }.

Record database : Type := mkDb
  { chats : list chat; messages : list message; files : list file_record }.

(** [calls]: the prompts sent to the model so far, oldest first;
    [requests]: how many requests the database has received. *)
Record world : Type := mkWorld
  { calls : list string; db : database; requests : nat }.

Definition M (A : Type) : Type := world -> A * world.

Definition ret {A} (a : A) : M A := fun w => (a, w).

Definition bind {A B} (m : M A) (f : A -> M B) : M B :=
  fun w => let (a, w') := m w in f a w'.

Notation "x <- m ;; k" := (bind m (fun x => k))
  (at level 61, m at next level, right associativity).
Notation "' p <- m ;; k" := (bind m (fun x => let p := x in k))
  (at level 61, p pattern, m at next level, right associativity).

(** list concatenation, apart from the [++] of strings *)
Infix "+++" := List.app (at level 60, right associativity).

(** the result dictionaries of [SupabaseService]:
    [{'success': True, 'data': d}] and [{'success': False, 'error': e}] *)
Inductive db_result (A : Type) : Type :=
| Ok (data : A)
| Err (error : string).
Arguments Ok {A} data.
Arguments Err {A} error.

(** the result dictionaries of [generate_response]:
    [{'success': True, 'response': r, 'is_academic': b}] and
    [{'success': False, 'error': e}] *)
Inductive gen_result : Type :=
| GenOk (response : string) (is_academic : bool)
| GenError (error : string).

Definition success (r : gen_result) : bool :=
  match r with GenOk _ _ => true | GenError _ => false end.

(** what [send_message] returns: [jsonify({'error': e}), status] or
    [jsonify({'user_message': u, 'assistant_message': a}), 201] *)
Inductive http_response : Type :=
| JsonError (error : string) (status : Z)
| JsonMessages (user_message assistant_message : message) (status : Z).

(** [self.academic_checker_prompt] *)
Definition academic_checker_prompt : string :=
  String.concat nl
    [ ""
    ; "        You are an academic content classifier. Your task is to determine if the given content is academic in nature."
    ; "        "
    ; "        Academic content includes:"
    ; "        - Research papers, studies, and scholarly articles"
    ; "        - Educational materials and textbooks"
    ; "        - Scientific data and analysis"
    ; "        - Academic presentations and lectures"
    ; "        - Thesis and dissertation content"
    ; "        - Course materials and syllabi"
    ; "        - Academic journals and publications"
    ; "        - Educational assessments and assignments"
    ; "        "
    ; "        Non-academic content includes:"
    ; "        - Personal documents (resumes, letters, etc.)"
    ; "        - Entertainment content (novels, movies, games, etc.)"
    ; "        - Commercial or marketing materials"
    ; "        - Social media content"
    ; "        - News articles (unless specifically academic research)"
    ; "        - General web content"
    ; "        - Personal photos or casual images"
    ; "        "
    ; "        Respond with only " ++ dq ++ "ACADEMIC" ++ dq ++ " or " ++ dq ++ "NON_ACADEMIC" ++ dq ++ " based on the content classification."
    ; "        "
    ; "        Content to classify:"
    ; "        "
    ].

(** [self.system_prompt] *)
Definition system_prompt : string :=
  String.concat nl
    [ ""
    ; "        You are an AI assistant specialized in academic research and study. Your primary function is to help users understand and analyze academic content from their uploaded documents."
    ; ""
    ; "        IMPORTANT GUIDELINES:"
    ; "        1. You ONLY answer questions related to academic research and study"
    ; "        2. If a question is not academic in nature, politely decline and explain your purpose"
    ; "        3. Base your answers on the provided document content when available"
    ; "        4. If asked about non-academic content in a document, respond: " ++ dq ++ "The information found in this document is not academic related, and this application is built for academic study and research." ++ dq
    ; "        5. Provide clear, well-structured, and educational responses"
    ; "        6. Cite specific parts of documents when referencing them"
    ; "        7. Encourage further academic inquiry and learning"
    ; ""
    ; "        Always maintain a helpful, professional, and educational tone."
    ; "        "
    ].

Definition off_topic_refusal : string :=
  "I'm designed specifically for academic study and research purposes. Please ask questions related to academic content, research, or educational materials.".

Definition not_academic_refusal : string :=
  "The information found in this document is not academic related, and this application is built for academic study and research.".

(** the f-string of [generate_chat_title] *)
Definition title_prompt (first_message : string) (max_length : Z) : string :=
  String.concat nl
    [ ""
    ; "            Generate a concise, descriptive title (maximum " ++ str_of_int max_length ++ " characters) for a chat conversation based on this first message:"
    ; "            "
    ; "            " ++ dq ++ first_message ++ dq
    ; "            "
    ; "            The title should:"
    ; "            - Be clear and specific"
    ; "            - Capture the main topic or question"
    ; "            - Be suitable for academic/research context"
    ; "            - Not exceed " ++ str_of_int max_length ++ " characters"
    ; "            "
    ; "            Respond with only the title, no additional text."
    ; "            "
    ].

(** the f-string of [summarize_document] *)
Definition summary_prompt (content : string) (max_length : Z) : string :=
  String.concat nl
    [ ""
    ; "            Provide a concise summary (maximum " ++ str_of_int max_length ++ " characters) of this academic document:"
    ; "            "
    ; "            " ++ content
    ; "            "
    ; "            Focus on:"
    ; "            - Main topic and objectives"
    ; "            - Key findings or concepts"
    ; "            - Relevance for academic study"
    ; "            "
    ; "            Respond with only the summary."
    ; "            "
    ].

(** [f"\\n--- Document {i+1} ---\\n{doc}"] over [enumerate(academic_docs)];
    the source escapes the backslash, so the separator is the two characters
    backslash and n, as it is in the literals below. *)
Fixpoint document_parts (i : Z) (academic_docs : list string) : list string :=
  match academic_docs with
  | [] => []
  | doc :: rest =>
      ("\n--- Document " ++ str_of_int (i + 1) ++ " ---\n" ++ doc)
        :: document_parts (i + 1) rest
  end.

(** one turn of the history: [f"\\n{role}: {msg['content']}"] *)
Definition history_part (msg : message) : string :=
  let role := if (m_role msg =? "user")%string then "User" else "Assistant" in
  "\n" ++ role ++ ": " ++ m_content msg.

(** [sorted] by a key, ties in the order of the table *)
Fixpoint insert_by {A} (key : A -> Z) (x : A) (l : list A) : list A :=
  match l with
  | [] => [x]
  | y :: t => if (key x <=? key y)%Z then x :: l else y :: insert_by key x t
  end.

Definition order_by {A} (key : A -> Z) (l : list A) : list A :=
  fold_right (insert_by key) [] l.

Definition set_db (d : database) (w : world) : world :=
  {| calls := calls w; db := d; requests := requests w |}.



Section Services.

(** the language model and the faults of the database *)
Variable model : list string -> string -> outcome.
Variable db_fault : nat -> option string.

(** ** [GeminiService] *)

(** [self.model.generate_content(prompt)] followed by the read of
    [response.text] *)
Definition generate_content (prompt : string) : M outcome :=
  fun w =>
    (model (calls w) prompt,
     {| calls := calls w +++ [prompt]; db := db w;
        requests := requests w |}).

Definition is_academic_content (content : string) : M bool :=
  let prompt := academic_checker_prompt ++ str_slice_to content 2000 in
  response <- generate_content prompt ;;
  match response with
  | Reply text =>
      let classification := upper (strip text) in
      ret (classification =? "ACADEMIC")%string
  | Failure _ => ret true
  end.

Definition generate_chat_title (first_message : string) (max_length : Z)
  : M string :=
  response <- generate_content (title_prompt first_message max_length) ;;
  match response with
  | Reply text =>
      let title := strip text in
      ret (if (len title >? max_length)%Z
           then str_slice_to title (max_length - 3) ++ "..."
           else title)
  | Failure _ =>
      ret (if (len first_message >? max_length)%Z
           then str_slice_to first_message (max_length - 3) ++ "..."
           else first_message)
  end.

(** the loop over [document_contents], with its two lists *)
Fixpoint classify_documents (document_contents academic_docs
                             non_academic_docs : list string)
  : M (list string * list string) :=
  match document_contents with
  | [] => ret (academic_docs, non_academic_docs)
  | doc_content :: rest =>
      academic <- is_academic_content doc_content ;;
      if academic
      then classify_documents rest (academic_docs +++ [doc_content])
                              non_academic_docs
      else classify_documents rest academic_docs
                              (non_academic_docs +++ [doc_content])
  end.

(** from [# Add chat history for context] to the end of the [try] block *)
Definition complete_and_generate (context_parts : list string)
    (question : string) (chat_history : list message) : M gen_result :=
  let context_parts :=
    match chat_history with
    | [] => context_parts
    | _ => context_parts +++ ["\n\nPrevious Conversation:"]
           +++ map history_part (list_slice_from chat_history (-10))
    end in
  let context_parts :=
    context_parts +++ ["\n\nCurrent Question: " ++ question]
    +++ ["\n\nPlease provide a comprehensive, academic response:"] in
  let full_prompt := String.concat "" context_parts in
  response <- generate_content full_prompt ;;
  match response with
  | Reply text => ret (GenOk text true)
  | Failure e => ret (GenError ("Error generating response: " ++ e))
  end.

Definition generate_response (question : string)
    (document_contents : list string) (chat_history : list message)
  : M gen_result :=
  if negb (is_academic_question question)
  then ret (GenOk off_topic_refusal false)
  else
    let context_parts := [system_prompt] in
    match document_contents with
    | [] => complete_and_generate context_parts question chat_history
    | _ =>
        '(academic_docs, non_academic_docs) <-
          classify_documents document_contents [] [] ;;
        match non_academic_docs, academic_docs with
        | _ :: _, [] => ret (GenOk not_academic_refusal false)
        | _, [] => complete_and_generate context_parts question chat_history
        | _, _ :: _ =>
            complete_and_generate
              (context_parts +++ ["\n\nDocument Content:"]
               +++ document_parts 0 academic_docs)
              question chat_history
        end
    end.

Definition summarize_document (content : string) (max_length : Z)
  : M string :=
  response <- generate_content (summary_prompt content max_length) ;;
  match response with
  | Reply text =>
      let summary := strip text in
      ret (if (len summary >? max_length)%Z
           then str_slice_to summary (max_length - 3) ++ "..."
           else summary)
  | Failure e => ret ("Document summary unavailable: " ++ e)
  end.

(** ** [SupabaseService], as far as [send_message] uses it *)

(** one request: it counts, and either runs on the tables or raises *)
Definition request {A} (run : database -> A * database) : M (string + A) :=
  fun w =>
    let w' := {| calls := calls w; db := db w; requests := S (requests w) |} in
    match db_fault (requests w) with
    | Some e => (inl e, w')
    | None => let (a, d) := run (db w) in (inr a, set_db d w')
    end.

Definition select {A} (rows : database -> list A) : M (string + list A) :=
  request (fun d => (rows d, d)).

Definition get_chat_by_id (chat_id user_id : string) : M (db_result chat) :=
  response <- select (fun d =>
    filter (fun c => (c_id c =? chat_id) && (c_user_id c =? user_id))%string
           (chats d)) ;;
  match response with
  | inr (c :: _) => ret (Ok c)
  | inr [] => ret (Err "Chat not found")
  | inl e => ret (Err e)
  end.



Definition get_chat_messages (chat_id user_id : string)
  : M (db_result (list message)) :=
  chat_result <- get_chat_by_id chat_id user_id ;;
  match chat_result with
  | Err e => ret (Err e)
  | Ok _ =>
      response <- select (fun d =>
        order_by m_message_order
          (filter (fun m => (m_chat_id m =? chat_id)%string) (messages d))) ;;
      match response with
      | inr rows => ret (Ok rows)
      | inl e => ret (Err e)
      end
  end.



(** ** The route [send_message] *)






End Services.

(** ** Notions the statements below are phrased with *)

(** Two characters that are the same letter, in either case: the character
    itself, or a capital and the small letter 32 code points above it. *)
Inductive same_letter : ascii -> ascii -> Prop :=
| same_char c : same_letter c c
| to_small c : is_capital c = true -> same_letter c (ascii_of_nat (code c + 32))
| to_capital c : is_capital c = true -> same_letter (ascii_of_nat (code c + 32)) c.

(** [case_variant q q']: [q'] is [q] with the case of some letters changed. *)
Inductive case_variant : string -> string -> Prop :=
| cv_empty : case_variant "" ""
| cv_char c c' s s' :
    same_letter c c' -> case_variant s s' ->
    case_variant (String c s) (String c' s').

(** the sharp s, U+00DF *)
Definition sharp_s : ascii := ascii_of_nat 223.

(** [n] copies of a character *)
Fixpoint replicate (n : nat) (c : ascii) : string :=
  match n with
  | O => ""
  | S n' => String c (replicate n' c)
  end.

(** The verdicts [is_academic_content] gives to a list of extracts when it
    is called on them one after the other, starting in the world [w]. *)
Fixpoint verdicts (model : list string -> string -> outcome)
    (document_contents : list string) (w : world) : list bool :=
  match document_contents with
  | [] => []
  | doc_content :: rest =>
      let (academic, w') := is_academic_content model doc_content w in
      academic :: verdicts model rest w'
  end.

(** the prompt [is_academic_content] sends for an extract *)
Definition classifier_prompt (doc_content : string) : string :=
  academic_checker_prompt ++ take 2000 doc_content.

(** the extracts that got the verdict [keep] *)
Definition chosen (keep : bool) (document_contents : list string)
    (vs : list bool) : list string :=
  map fst (filter (fun dv => Bool.eqb (snd dv) keep)
                  (combine document_contents vs)).

(** the part of the prompt that holds the academic extracts *)
Definition documents_section (academic_docs : list string) : string :=
  match academic_docs with
  | [] => ""
  | _ => "\n\nDocument Content:" ++ String.concat "" (document_parts 0 academic_docs)
  end.

(** the world after the prompts [ps] have been sent to the model *)
Definition with_calls (w : world) (ps : list string) : world :=
  {| calls := calls w +++ ps; db := db w; requests := requests w |}.

(** a world in which nothing has happened yet *)
Definition fresh_world (d : database) : world :=
  {| calls := []; db := d; requests := 0 |}.

Definition empty_db : database := {| chats := []; messages := []; files := [] |}.

(** models that answer every prompt the same way, and a database that never
    fails *)
Definition always (r : outcome) : list string -> string -> outcome :=
  fun _ _ => r.

Definition no_fault : nat -> option string := fun _ => None.

(** a conversation of twelve turns, numbered from 1, the user speaking on
    the odd ones *)
Definition turn (n : Z) : message :=
  {| m_chat_id := "c1";
     m_content := "turn " ++ str_of_int n;
     m_role := if Z.odd n then "user" else "assistant";
     m_message_order := n |}.

Definition first_two_turns : list message := map turn [1; 2]%Z.

Definition last_ten_turns : list message :=
  map turn [3; 4; 5; 6; 7; 8; 9; 10; 11; 12]%Z.



(** ** [FileProcessor]

    The four libraries that read a file ([fitz], [docx], [pptx] and [PIL])
    lie outside the program: each either raises, with the text of its
    exception, or hands back what the code reads from it. *)

(** [Config.ALLOWED_EXTENSIONS] and [Config.MAX_CONTENT_LENGTH] *)
Definition allowed_extensions : list string :=
  [ "pdf"; "doc"; "docx"; "ppt"; "pptx"; "jpg"; "jpeg"; "png"; "gif" ].

Definition max_file_size : Z := 20 * 1024 * 1024.

(** [x in xs] for a set or a list of strings *)
Definition str_mem (x : string) (xs : list string) : bool :=
  existsb (String.eqb x) xs.

(** [s.rsplit(sep, 1)] for a separator of one character that occurs in
    [s]: the text before its last occurrence and the text after it.  [None]
    when it does not occur, where Python returns the one-element list. *)
Fixpoint rsplit1 (sep : ascii) (s : string) : option (string * string) :=
  match s with
  | "" => None
  | String c t =>
      match rsplit1 sep t with
      | Some (before, after) => Some (String c before, after)
      | None => if Ascii.eqb c sep then Some ("", t) else None
      end
  end.

(** [s.rfind(c)] for one character: the index of its last occurrence, or -1 *)
Fixpoint rfind (c : ascii) (s : string) : Z :=
  match s with
  | "" => -1
  | String x t =>
      let r := rfind c t in
      if (0 <=? r)%Z then (r + 1)%Z
      else if Ascii.eqb x c then 0%Z else (-1)%Z
  end.

(** In the two functions below the index [1] of the split is in range: the
    test before it has found a dot. *)
Definition is_allowed_file (filename : string) : bool :=
  if negb (str_in "." filename) then false
  else match rsplit1 "." filename with
       | Some (_, after) =>
           let extension := lower after in
           str_mem extension allowed_extensions
       | None => false
       end.

Definition get_file_type (filename : string) : string :=
  if negb (str_in "." filename) then "unknown"
  else match rsplit1 "." filename with
       | Some (_, after) => lower after
       | None => "unknown"
       end.

(** [{'valid': True}] and [{'valid': False, 'error': e}] *)
Inductive validation : Type :=
| Valid
| Invalid (error : string).

Definition validate_file (file_data : list Byte.byte) (filename : string)
  : validation :=
  if (Z.of_nat (List.length file_data) >? max_file_size)%Z
  then Invalid ("File size exceeds maximum limit of "
                ++ str_of_int (max_file_size / (1024 * 1024)) ++ "MB")
  else if negb (is_allowed_file filename)
  then Invalid "File type not supported. Supported types: PDF, Word (.doc, .docx), PowerPoint (.ppt, .pptx), Images (.jpg, .jpeg, .png, .gif)"
  else Valid.

(** what [process_image] reads from the opened image; [img_format] is the
    text the f-string prints for [image.format] *)
Record image_info : Type := mkImage
  { img_format : string; img_width : Z; img_height : Z; img_mode : string }.

(** the result dictionaries of [extract_content]:
    [{'success': True, 'content': c, 'file_type': t, 'filename': f}] and
    [{'success': False, 'error': e, 'file_type': t, 'filename': f}] *)
Inductive extraction : Type :=
| Extracted (content file_type filename : string)
| NotExtracted (error file_type filename : string).

Definition create_file_preview (content : string) (max_length : Z) : string :=
  if (len content <=? max_length)%Z then content
  else
    let truncated := str_slice_to content max_length in
    let last_sentence := rfind "." truncated in
    let last_space := rfind " " truncated in
    if (last_sentence >? max_length - 50)%Z
    then str_slice_to content (last_sentence + 1) ++ "..."
    else if (last_space >? max_length - 20)%Z
    then str_slice_to content last_space ++ "..."
    else truncated ++ "...".

Section Extraction.

(** the libraries: the text of each page, of each paragraph, of each shape
    of each slide that has a [text], and the opened image; [inl e] when the
    library raises with [str(e) = e] *)
Variable fitz_pages : list Byte.byte -> string + list string.
Variable docx_paragraphs : list Byte.byte -> string + list string.
Variable pptx_slides : list Byte.byte -> string + list (list (option string)).
Variable pil_image : list Byte.byte -> string + image_info.

(** the extractors return their text ([inr]) or raise their own exception,
    whose text is given ([inl]) *)
Definition extract_text_from_pdf (file_data : list Byte.byte) : string + string :=
  match fitz_pages file_data with
  | inr pages => inr (strip (String.concat "" pages))
  | inl e => inl ("Error extracting text from PDF: " ++ e)
  end.

Definition extract_text_from_docx (file_data : list Byte.byte) : string + string :=
  match docx_paragraphs file_data with
  | inr paragraphs =>
      inr (strip (String.concat "" (map (fun text => text ++ "\n") paragraphs)))
  | inl e => inl ("Error extracting text from DOCX: " ++ e)
  end.

Definition extract_text_from_doc (file_data : list Byte.byte) : string + string :=
  inr "DOC file processing requires additional setup. Please convert to DOCX format for better support.".

(** the texts of the shapes of a slide that have one, each followed by the
    escaped [\\n] *)
Fixpoint shape_texts (shapes : list (option string)) : string :=
  match shapes with
  | [] => ""
  | Some text :: rest => text ++ "\n" ++ shape_texts rest
  | None :: rest => shape_texts rest
  end.

Definition extract_text_from_pptx (file_data : list Byte.byte) : string + string :=
  match pptx_slides file_data with
  | inr slides => inr (strip (String.concat "" (map shape_texts slides)))
  | inl e => inl ("Error extracting text from PPTX: " ++ e)
  end.

Definition extract_text_from_ppt (file_data : list Byte.byte) : string + string :=
  inr "PPT file processing requires additional setup. Please convert to PPTX format for better support.".

Definition process_image (file_data : list Byte.byte) (filename : string)
  : string + string :=
  match pil_image file_data with
  | inr image =>
      inr ("Image file: " ++ filename ++ "\n"
           ++ "Format: " ++ img_format image ++ "\n"
           ++ "Size: " ++ str_of_int (img_width image) ++ "x"
           ++ str_of_int (img_height image) ++ " pixels\n"
           ++ "Mode: " ++ img_mode image ++ "\n"
           ++ "\nNote: Text extraction from images requires OCR setup. Please ensure any important text content is also provided in document form.")
  | inl e => inl ("Error processing image: " ++ e)
  end.

Definition extract_content (file_data : list Byte.byte) (filename : string)
  : extraction :=
  let file_type := get_file_type filename in
  let extracted :=
    if (file_type =? "pdf")%string then extract_text_from_pdf file_data
    else if (file_type =? "docx")%string then extract_text_from_docx file_data
    else if (file_type =? "doc")%string then extract_text_from_doc file_data
    else if (file_type =? "pptx")%string then extract_text_from_pptx file_data
    else if (file_type =? "ppt")%string then extract_text_from_ppt file_data
    else if str_mem file_type ["jpg"; "jpeg"; "png"; "gif"]
    then process_image file_data filename
    else inl ("Unsupported file type: " ++ file_type) in
  match extracted with
  | inr content =>
      let content :=
        if (content =? "")%string || (strip content =? "")%string
        then "No extractable content found in " ++ filename
             ++ ". The file may be empty, corrupted, or contain only images/graphics."
        else content in
      Extracted content file_type filename
  | inl e => NotExtracted e (get_file_type filename) filename
  end.

End Extraction.

(** ** The validators of [routes/auth.py] *)

(** [[A-Z]], [[a-z]] and the pattern the source writes [r"\\d"]: a raw
    string of three characters, which [re] reads as an escaped backslash
    followed by the letter d *)
Definition pattern_capital : pattern :=
  [ OneOf [ "A"; "B"; "C"; "D"; "E"; "F"; "G"; "H"; "I"; "J"; "K"; "L"; "M";
            "N"; "O"; "P"; "Q"; "R"; "S"; "T"; "U"; "V"; "W"; "X"; "Y"; "Z" ] ].

Definition pattern_small : pattern :=
  [ OneOf [ "a"; "b"; "c"; "d"; "e"; "f"; "g"; "h"; "i"; "j"; "k"; "l"; "m";
            "n"; "o"; "p"; "q"; "r"; "s"; "t"; "u"; "v"; "w"; "x"; "y"; "z" ] ].

Definition pattern_backslash_d : pattern := [ OneOf [ "\d" ] ].

Definition validate_password (password : string) : bool * string :=
  if (len password <? 8)%Z
  then (false, "Password must be at least 8 characters long")
  else if negb (re_search pattern_capital password)
  then (false, "Password must contain at least one uppercase letter")
  else if negb (re_search pattern_small password)
  then (false, "Password must contain at least one lowercase letter")
  else if negb (re_search pattern_backslash_d password)
  then (false, "Password must contain at least one number")
  else (true, "Password is valid").

(** the class [[a-zA-Z0-9_]] *)
Definition is_name_char (c : ascii) : bool :=
  between 97 122 c || between 65 90 c || between 48 57 c || (code c =? 95).

(** [[a-zA-Z0-9_]*$] from a position on: [$] finds the end of the text,
    also before a last line feed *)
Fixpoint name_chars_to_end (s : string) : bool :=
  match s with
  | "" => true
  | String c t =>
      if is_name_char c then name_chars_to_end t
      else (code c =? 10) && (t =? "")%string
  end.

(** [re.match(r"^[a-zA-Z0-9_]+$", s)] is not [None] *)
Definition match_name (s : string) : bool :=
  match s with
  | "" => false
  | String c t => is_name_char c && name_chars_to_end t
  end.

Definition validate_username (username : string) : bool * string :=
  if (len username <? 3)%Z
  then (false, "Username must be at least 3 characters long")
  else if (len username >? 50)%Z
  then (false, "Username must be no more than 50 characters long")
  else if negb (match_name username)
  then (false, "Username can only contain letters, numbers, and underscores")
  else (true, "Username is valid").

(** ** The checks of the route [signup]

    The body of the request is a JSON object with text values, a function
    from keys to values here.  [validators.email] lies outside the
    program. *)

Record signup_fields : Type := mkSignup
  { su_username : string; su_email : string; su_first_name : string;
    su_last_name : string; su_other_name : string; su_password : string }.

Definition required_fields : list string :=
  [ "username"; "email"; "first_name"; "last_name"; "password";
    "confirm_password" ].

(** the loop over [required_fields]: the first field that is not in the
    body, or is blank once stripped *)
Fixpoint first_missing (data : string -> option string)
    (fields : list string) : option string :=
  match fields with
  | [] => None
  | field :: rest =>
      match data field with
      | None => Some field
      | Some value =>
          if (strip value =? "")%string then Some field
          else first_missing data rest
      end
  end.

(** [data.get(key, '')]; for the required fields, which the loop has found
    in the body, it is [data[key]] *)
Definition get_or_empty (data : string -> option string) (key : string)
  : string :=
  match data key with Some value => value | None => "" end.

Section SignupChecks.

Variable validate_email : string -> bool.

(** [signup] from its first line to the last check before the database is
    asked: the answer it gives at once, or the fields it goes on with *)
Definition signup_checks (data : string -> option string)
  : http_response + signup_fields :=
  match first_missing data required_fields with
  | Some field => inl (JsonError (field ++ " is required") 400)
  | None =>
      let username := strip (get_or_empty data "username") in
      let email := lower (strip (get_or_empty data "email")) in
      let first_name := strip (get_or_empty data "first_name") in
      let last_name := strip (get_or_empty data "last_name") in
      let other_name := strip (get_or_empty data "other_name") in
      let password := get_or_empty data "password" in
      let confirm_password := get_or_empty data "confirm_password" in
      if negb (password =? confirm_password)%string
      then inl (JsonError "Passwords do not match" 400)
      else
        let (username_valid, username_msg) := validate_username username in
        if negb username_valid then inl (JsonError username_msg 400)
        else if negb (validate_email email)
        then inl (JsonError "Invalid email format" 400)
        else
          let (password_valid, password_msg) := validate_password password in
          if negb password_valid then inl (JsonError password_msg 400)
          else inr {| su_username := username; su_email := email;
                      su_first_name := first_name; su_last_name := last_name;
                      su_other_name := other_name; su_password := password |}
  end.

End SignupChecks.

(** ** The accounts: [SupabaseService] and [routes/auth.py]

    The tables [users] and [password_reset_tokens], with the columns the
    code reads.  Outside the program lie the database, which may raise on
    any request and gives a new row its [id]; [bcrypt], whose [hashpw]
    draws a salt and whose two functions may raise; the clock; the source
    of random tokens; [validators.email]; and [create_access_token].  What
    they give at a moment is a function of the number of requests made so
    far.  Times are counted in seconds, and a time read back from the table
    is the time that was written there. *)

Record user : Type := mkUser
  { u_id : string; u_username : string; u_email : string;
    u_first_name : string; u_last_name : string; u_other_name : string;
    u_password_hash : string; u_is_active : bool }.

Record reset_token : Type := mkToken
  { t_user_id : string; t_token : string; t_expires_at : Z; t_used : bool }.

Record accounts : Type := mkAccounts
  { users : list user; tokens : list reset_token; asked : nat }.

(** the part of a user row the routes send back *)
Record public_user : Type := mkPublic
  { p_id : string; p_username : string; p_email : string;
    p_first_name : string; p_last_name : string; p_other_name : string }.

Definition public (u : user) : public_user :=
  {| p_id := u_id u; p_username := u_username u; p_email := u_email u;
     p_first_name := u_first_name u; p_last_name := u_last_name u;
     p_other_name := u_other_name u |}.

(** what the routes of [auth.py] return: [{'error': e}], [{'message': m}],
    or a message with the user and an access token, each with its status *)
Inductive auth_response : Type :=
| AuthError (error : string) (status : Z)
| AuthMessage (message : string) (status : Z)
| AuthUser (message : string) (u : public_user) (access_token : string)
           (status : Z).

(** the answer of the checks of [signup], which is an error whenever they
    answer *)
Definition refused (r : http_response) : auth_response :=
  match r with
  | JsonError e status => AuthError e status
  | JsonMessages _ _ status => AuthError "" status
  end.

Definition A (T : Type) : Type := accounts -> T * accounts.

Definition aret {T} (a : T) : A T := fun w => (a, w).

Definition abind {T U} (m : A T) (f : T -> A U) : A U :=
  fun w => let (a, w') := m w in f a w'.

Notation "x <~ m ;; k" := (abind m (fun x => k))
  (at level 61, m at next level, right associativity).

Definition set_hash (user_id hash : string) (u : user) : user :=
  if (u_id u =? user_id)%string
  then {| u_id := u_id u; u_username := u_username u; u_email := u_email u;
          u_first_name := u_first_name u; u_last_name := u_last_name u;
          u_other_name := u_other_name u; u_password_hash := hash;
          u_is_active := u_is_active u |}
  else u.

Definition set_used (token : string) (t : reset_token) : reset_token :=
  if (t_token t =? token)%string
  then {| t_user_id := t_user_id t; t_token := t_token t;
          t_expires_at := t_expires_at t; t_used := true |}
  else t.

Section Accounts.

Variable db_fault : nat -> option string.
Variable fresh_id : nat -> string.
Variable hashpw : nat -> string -> string + string.
Variable checkpw : string -> string -> string + bool.
Variable utcnow : nat -> Z.
Variable token_urlsafe : nat -> string.
Variable validate_email : string -> bool.
Variable create_access_token : string -> string.

(** one request to the database: it counts, and either runs on the tables
    or raises *)
Definition ask {T} (run : accounts -> T * (list user * list reset_token))
  : A (string + T) :=
  fun w =>
    match db_fault (asked w) with
    | Some e =>
        (inl e, {| users := users w; tokens := tokens w; asked := S (asked w) |})
    | None =>
        let '(a, (us, ts)) := run w in
        (inr a, {| users := us; tokens := ts; asked := S (asked w) |})
    end.

Definition look {T} (rows : accounts -> list T) : A (string + list T) :=
  ask (fun w => (rows w, (users w, tokens w))).

(** [get_user_by_username], [get_user_by_email], [get_user_by_id]: the
    select with its one [eq] filter *)
Definition get_user_by (column : user -> string) (value : string)
  : A (db_result user) :=
  response <~ look (fun w =>
    filter (fun u => (column u =? value)%string) (users w)) ;;
  match response with
  | inr (u :: _) => aret (Ok u)
  | inr [] => aret (Err "User not found")
  | inl e => aret (Err e)
  end.

Definition get_user_by_username := get_user_by u_username.
Definition get_user_by_email := get_user_by u_email.
Definition get_user_by_id := get_user_by u_id.

(** [hash_password], with the salt of the moment *)
Definition hash_password (password : string) : A (string + string) :=
  fun w => (hashpw (asked w) password, w).

(** a new row is active, as [login] takes a row without the column to be *)
Definition create_user (username email first_name last_name other_name
                        password : string) : A (db_result user) :=
  hashed <~ hash_password password ;;
  match hashed with
  | inl e => aret (Err e)
  | inr password_hash =>
      response <~ ask (fun w =>
        let row := {| u_id := fresh_id (asked w); u_username := username;
                      u_email := email; u_first_name := first_name;
                      u_last_name := last_name; u_other_name := other_name;
                      u_password_hash := password_hash;
                      u_is_active := true |} in
        (row, (users w +++ [row], tokens w))) ;;
      match response with
      | inr row => aret (Ok row)
      | inl e => aret (Err e)
      end
  end.

(** [response.data[0]] raises when no row has this id *)
Definition update_user_password (user_id new_password : string)
  : A (db_result user) :=
  hashed <~ hash_password new_password ;;
  match hashed with
  | inl e => aret (Err e)
  | inr password_hash =>
      response <~ ask (fun w =>
        let users' := map (set_hash user_id password_hash) (users w) in
        (filter (fun u => (u_id u =? user_id)%string) users',
         (users', tokens w))) ;;
      match response with
      | inr (u :: _) => aret (Ok u)
      | inr [] => aret (Err "list index out of range")
      | inl e => aret (Err e)
      end
  end.

Definition delete_user (user_id : string) : A (db_result (list user)) :=
  response <~ ask (fun w =>
    (filter (fun u => (u_id u =? user_id)%string) (users w),
     (filter (fun u => negb (u_id u =? user_id)%string) (users w),
      tokens w))) ;;
  match response with
  | inr rows => aret (Ok rows)
  | inl e => aret (Err e)
  end.

Definition create_password_reset_token (user_id : string)
  : A (db_result reset_token) :=
  fun w =>
    let token := token_urlsafe (asked w) in
    let expires_at := (utcnow (asked w) + 3600)%Z in
    (response <~ ask (fun w =>
       let row := {| t_user_id := user_id; t_token := token;
                     t_expires_at := expires_at; t_used := false |} in
       (row, (users w, tokens w +++ [row]))) ;;
     match response with
     | inr row => aret (Ok row)
     | inl e => aret (Err e)
     end) w.

Definition verify_password_reset_token (token : string)
  : A (db_result reset_token) :=
  response <~ look (fun w =>
    filter (fun t => (t_token t =? token)%string && negb (t_used t))
           (tokens w)) ;;
  match response with
  | inr [] => aret (Err "Invalid token")
  | inr (token_data :: _) =>
      fun w =>
        if (utcnow (asked w) >? t_expires_at token_data)%Z
        then (Err "Token expired", w)
        else (Ok token_data, w)
  | inl e => aret (Err e)
  end.

Definition mark_password_reset_token_used (token : string)
  : A (db_result (list reset_token)) :=
  response <~ ask (fun w =>
    let tokens' := map (set_used token) (tokens w) in
    (filter (fun t => (t_token t =? token)%string) tokens',
     (users w, tokens'))) ;;
  match response with
  | inr rows => aret (Ok rows)
  | inl e => aret (Err e)
  end.

(** [supabase_service.verify_password], which raises when [checkpw] does;
    the routes then answer 500 with the text of the exception *)
Definition verify_password (password hashed : string) : string + bool :=
  checkpw password hashed.

(** *** The routes *)

Definition signup (data : string -> option string) : A auth_response :=
  match signup_checks validate_email data with
  | inl refusal => aret (refused refusal)
  | inr fields =>
      existing_user <~ get_user_by_username (su_username fields) ;;
      match existing_user with
      | Ok _ => aret (AuthError "Username already exists" 409)
      | Err _ =>
          existing_email <~ get_user_by_email (su_email fields) ;;
          match existing_email with
          | Ok _ => aret (AuthError "Email already registered" 409)
          | Err _ =>
              result <~ create_user (su_username fields) (su_email fields)
                          (su_first_name fields) (su_last_name fields)
                          (su_other_name fields) (su_password fields) ;;
              match result with
              | Ok user_data =>
                  aret (AuthUser "User created successfully" (public user_data)
                          (create_access_token (u_id user_data)) 201)
              | Err e => aret (AuthError e 500)
              end
          end
      end
  end.

Definition login (data : string -> option string) : A auth_response :=
  match data "login", data "password" with
  | Some given, Some password =>
      let login_value := strip given in
      user_result <~ (if validate_email login_value
                      then get_user_by_email (lower login_value)
                      else get_user_by_username login_value) ;;
      match user_result with
      | Err _ => aret (AuthError "Invalid credentials" 401)
      | Ok user_data =>
          match verify_password password (u_password_hash user_data) with
          | inl e => aret (AuthError e 500)
          | inr false => aret (AuthError "Invalid credentials" 401)
          | inr true =>
              if negb (u_is_active user_data)
              then aret (AuthError "Account is deactivated" 401)
              else aret (AuthUser "Login successful" (public user_data)
                           (create_access_token (u_id user_data)) 200)
          end
      end
  | _, _ =>
      aret (AuthError "Login (username/email) and password are required" 400)
  end.

Definition change_password (user_id : string) (data : string -> option string)
  : A auth_response :=
  match data "current_password", data "new_password" with
  | Some current_password, Some new_password =>
      user_result <~ get_user_by_id user_id ;;
      match user_result with
      | Err _ => aret (AuthError "User not found" 404)
      | Ok user_data =>
          match verify_password current_password (u_password_hash user_data) with
          | inl e => aret (AuthError e 500)
          | inr false => aret (AuthError "Current password is incorrect" 401)
          | inr true =>
              let (password_valid, password_msg) :=
                validate_password new_password in
              if negb password_valid then aret (AuthError password_msg 400)
              else
                result <~ update_user_password user_id new_password ;;
                match result with
                | Ok _ => aret (AuthMessage "Password updated successfully" 200)
                | Err e => aret (AuthError e 500)
                end
          end
      end
  | _, _ =>
      aret (AuthError "Current password and new password are required" 400)
  end.

Definition forgot_password (data : string -> option string) : A auth_response :=
  match data "email" with
  | None => aret (AuthError "Email is required" 400)
  | Some given =>
      let email := lower (strip given) in
      if negb (validate_email email)
      then aret (AuthError "Invalid email format" 400)
      else
        user_result <~ get_user_by_email email ;;
        match user_result with
        | Err _ =>
            aret (AuthMessage
                    "If the email exists, a password reset link has been sent"
                    200)
        | Ok user_data =>
            token_result <~ create_password_reset_token (u_id user_data) ;;
            match token_result with
            | Ok _ =>
                aret (AuthMessage
                        "Password reset link has been sent to your email" 200)
            | Err _ => aret (AuthError "Failed to generate reset token" 500)
            end
        end
  end.

Definition reset_password (data : string -> option string) : A auth_response :=
  match data "token" with
  | None => aret (AuthError "token is required" 400)
  | Some token =>
      match data "new_password" with
      | None => aret (AuthError "new_password is required" 400)
      | Some new_password =>
          let (password_valid, password_msg) :=
            validate_password new_password in
          if negb password_valid then aret (AuthError password_msg 400)
          else
            token_result <~ verify_password_reset_token token ;;
            match token_result with
            | Err e => aret (AuthError e 400)
            | Ok token_data =>
                let user_id := t_user_id token_data in
                password_result <~ update_user_password user_id new_password ;;
                match password_result with
                | Err e => aret (AuthError e 500)
                | Ok _ =>
                    _ <~ mark_password_reset_token_used token ;;
                    aret (AuthMessage "Password reset successfully" 200)
                end
            end
      end
  end.

Definition delete_account (user_id : string) (data : string -> option string)
  : A auth_response :=
  match data "password" with
  | None => aret (AuthError "Password confirmation is required" 400)
  | Some password =>
      user_result <~ get_user_by_id user_id ;;
      match user_result with
      | Err _ => aret (AuthError "User not found" 404)
      | Ok user_data =>
          match verify_password password (u_password_hash user_data) with
          | inl e => aret (AuthError e 500)
          | inr false => aret (AuthError "Password is incorrect" 401)
          | inr true =>
              result <~ delete_user user_id ;;
              match result with
              | Ok _ => aret (AuthMessage "Account deleted successfully" 200)
              | Err e => aret (AuthError e 500)
              end
          end
      end
  end.

End Accounts.

(** the class of the ASCII letters and digits *)
Definition is_letter_or_digit (c : ascii) : bool :=
  between 48 57 c || between 65 90 c || between 97 122 c.

(** a request body given by its pairs of key and value *)
Fixpoint body (pairs : list (string * string)) (key : string) : option string :=
  match pairs with
  | [] => None
  | (k, v) :: rest => if (k =? key)%string then Some v else body rest key
  end.

(** the part of the prompt that holds the turns [shown] of a history *)
Definition history_section (shown : list message) : string :=
  match shown with
  | [] => ""
  | _ => "\n\nPrevious Conversation:" ++ String.concat "" (map history_part shown)
  end.

(** a model that is out of reach: every call raises *)
Definition unreachable_model : list string -> string -> outcome :=
  fun _ _ => Failure "503 unavailable".

(** the world after [n] requests that left the tables as they were *)
Definition ticked (n : nat) (w : world) : world :=
  {| calls := calls w; db := db w; requests := n + requests w |}.

(** the rows of a chat, and the chats a user owns under an id *)
Definition in_chat (chat_id : string) (m : message) : bool :=
  (m_chat_id m =? chat_id)%string.

Definition owned (chat_id user_id : string) (c : chat) : bool :=
  ((c_id c =? chat_id) && (c_user_id c =? user_id))%string.

(** a chat with two stored turns *)
Definition two_turn_db : database :=
  {| chats := [ {| c_id := "c1"; c_user_id := "u1"; c_title := "Entropy" |} ];
     messages := first_two_turns;
     files := [] |}.


(** [has_char P s]: some character of [s] is in the class [P];
    [all_chars P s]: all of them are *)
Definition has_char (P : ascii -> bool) (s : string) : Prop :=
  exists a c b, s = a ++ String c b /\ P c = true.

Fixpoint all_chars (P : ascii -> bool) (s : string) : bool :=
  match s with
  | "" => true
  | String c t => P c && all_chars P t
  end.

(** libraries that read a file without raising *)
Definition reads_pages (pages : list string)
  : list Byte.byte -> string + list string := fun _ => inr pages.

Definition reads_slides (slides : list (list (option string)))
  : list Byte.byte -> string + list (list (option string)) :=
  fun _ => inr slides.

Definition reads_image (image : image_info)
  : list Byte.byte -> string + image_info := fun _ => inr image.

Definition a_png : image_info :=
  {| img_format := "PNG"; img_width := 640; img_height := 480;
     img_mode := "RGB" |}.

(** the tables after a request that ran *)
Definition asked_once (w : accounts) : accounts :=
  {| users := users w; tokens := tokens w; asked := S (asked w) |}.

(** an account, a live and a spent reset token for it, and stand-ins for
    what lies outside: a hash that prefixes, the check that goes with it,
    an address test that looks for the at sign *)
Definition ada : user :=
  {| u_id := "u1"; u_username := "ada"; u_email := "ada@example.org";
     u_first_name := "Ada"; u_last_name := "Lovelace"; u_other_name := "";
     u_password_hash := "hash:Secret\d1"; u_is_active := true |}.

Definition live_token : reset_token :=
  {| t_user_id := "u1"; t_token := "tok"; t_expires_at := 5000;
     t_used := false |}.

Definition one_account : accounts :=
  {| users := [ada]; tokens := [live_token]; asked := 0 |}.

Definition plain_hash : nat -> string -> string + string :=
  fun _ password => inr ("hash:" ++ password).

Definition plain_check : string -> string -> string + bool :=
  fun password hashed => inr (hashed =? "hash:" ++ password)%string.

Definition has_at_sign : string -> bool := str_in "@".

Definition numbered_id : nat -> string :=
  fun n => "u" ++ str_of_int (Z.of_nat n + 2).

Definition token_for : string -> string := fun user_id => "jwt:" ++ user_id.

Definition noon : nat -> Z := fun _ => 4000%Z.

(** * Properties *)

(** ** Strings *)

Lemma str_length_app (a b : string) :
  String.length (a ++ b) = String.length a + String.length b.
Proof. induction a as [|c a IH]; simpl; [reflexivity | now rewrite IH]. Qed.

Lemma app_assoc_str (a b c : string) : (a ++ b) ++ c = a ++ (b ++ c).
Proof. induction a as [|x a IH]; simpl; [reflexivity | now rewrite IH]. Qed.

Lemma take_length (n : nat) (s : string) :
  String.length (take n s) = Nat.min n (String.length s).
Proof.
  revert s; induction n as [|n IH]; intros [|c s]; simpl; try reflexivity.
  now rewrite IH.
Qed.

Lemma take_take (n : nat) (s : string) : take n (take n s) = take n s.
Proof.
  revert s; induction n as [|n IH]; intros [|c s]; simpl; try reflexivity.
  now rewrite IH.
Qed.

Lemma str_slice_to_take (s : string) (k : Z) :
  (0 <= k)%Z -> str_slice_to s k = take (Z.to_nat k) s.
Proof.
  intros H. unfold str_slice_to, slice_index.
  destruct (k <? 0)%Z eqn:E; [apply Z.ltb_lt in E; lia | reflexivity].
Qed.

Lemma lower_app (a b : string) : lower (a ++ b) = lower a ++ lower b.
Proof. induction a as [|c a IH]; simpl; [reflexivity | now rewrite IH]. Qed.

Lemma prefix_app (k b : string) : prefix k (k ++ b) = true.
Proof.
  induction k as [|c k IH]; simpl; [now destruct b |].
  destruct (ascii_dec c c) as [_|N]; [exact IH | now elim N].
Qed.

Lemma str_in_here (k h : string) : prefix k h = true -> str_in k h = true.
Proof. intros H. destruct h; cbn [str_in]; rewrite H; reflexivity. Qed.

Lemma str_in_app (a k b : string) : str_in k (a ++ k ++ b) = true.
Proof.
  induction a as [|c a IH].
  - change ("" ++ k ++ b) with (k ++ b). apply str_in_here, prefix_app.
  - cbn [append str_in]. rewrite IH. now destruct (prefix k _).
Qed.

Lemma prefix_drop (k h : string) :
  prefix k h = true -> h = k ++ drop (String.length k) h.
Proof.
  revert h; induction k as [|c k IH]; intros h H.
  - now destruct h.
  - destruct h as [|x h]; [discriminate|]. simpl in H.
    destruct (ascii_dec c x) as [->|]; [|discriminate].
    simpl. f_equal. now apply IH.
Qed.

(** [str_in] is containment: it holds exactly of the texts that read
    [a ++ needle ++ b]. *)
Lemma str_in_iff (k h : string) :
  str_in k h = true <-> exists a b, h = a ++ k ++ b.
Proof.
  split.
  - induction h as [|c h IH]; intros H.
    + exists "", "". destruct k; [reflexivity | discriminate].
    + cbn [str_in] in H. destruct (prefix k (String c h)) eqn:P.
      * exists "", (drop (String.length k) (String c h)).
        now apply prefix_drop.
      * destruct (IH H) as (a & b & ->). now exists (String c a), b.
  - intros (a & b & ->). apply str_in_app.
Qed.

(** ** The question gate *)

Lemma is_academic_question_eq (question : string) :
  is_academic_question question
  = negb (existsb (fun keyword => str_in keyword (lower question))
                  non_academic_keywords).
Proof.
  unfold is_academic_question.
  destruct (existsb _ non_academic_keywords); [reflexivity|].
  destruct (existsb _ academic_keywords); [reflexivity|].
  destruct (existsb _ academic_patterns); reflexivity.
Qed.

Lemma lower_char_same_letter (c c' : ascii) :
  same_letter c c' -> lower_char c = lower_char c'.
Proof.
  intros [x | x Hx | x Hx]; [reflexivity | |];
    destruct x as [[] [] [] [] [] [] [] []];
    solve [discriminate Hx | reflexivity].
Qed.

Lemma lower_case_variant (q q' : string) :
  case_variant q q' -> lower q = lower q'.
Proof.
  induction 1 as [|c c' s s' Hc _ IH]; simpl; [reflexivity|].
  now rewrite IH, (lower_char_same_letter c c' Hc).
Qed.

Lemma non_academic_keywords_are_lower :
  Forall (fun keyword => lower keyword = keyword) non_academic_keywords.
Proof. repeat constructor. Qed.

(** C4.  A question that contains a keyword of the non-academic set, its
    letters in any mix of cases, is classified NON_ACADEMIC: the question
    reads [before ++ found ++ after], where [found] is the keyword up to
    the case of its letters.  Nothing is asked of the rest of the question,
    which may hold academic keywords or match the structural patterns. *)
Theorem non_academic_keyword_takes_precedence
    (question keyword before found after : string) :
  In keyword non_academic_keywords ->
  question = before ++ found ++ after ->
  case_variant keyword found ->
  is_academic_question question = false.
Proof.
  intros Hin -> Hcase.
  unfold is_academic_question.
  replace (existsb _ non_academic_keywords) with true; [reflexivity|].
  symmetry. apply existsb_exists. exists keyword. split; [exact Hin|].
  rewrite !lower_app, <- (lower_case_variant keyword found Hcase).
  pose proof non_academic_keywords_are_lower as L.
  rewrite Forall_forall in L. rewrite (L keyword Hin).
  apply str_in_app.
Qed.

Lemma non_academic_keyword_takes_precedence_witness :
  existsb (fun keyword => str_in keyword
             (lower "Explain the theory behind Movie ratings research"))
          academic_keywords = true
  /\ existsb (fun p => re_search p
             (lower "Explain the theory behind Movie ratings research"))
          academic_patterns = true
  /\ is_academic_question "Explain the theory behind Movie ratings research"
     = false.
Proof.
  split; [reflexivity|]. split; [reflexivity|].
  apply (non_academic_keyword_takes_precedence
           "Explain the theory behind Movie ratings research" "movie"
           "Explain the theory behind " "Movie" " ratings research").
  - simpl. tauto.
  - reflexivity.
  - apply cv_char; [apply (to_capital "M"%char); reflexivity|].
    repeat (apply cv_char; [apply same_char|]). apply cv_empty.
Defined.

(** C8.  A question whose lower-cased text contains no keyword of either
    set and in which none of the four structural patterns finds a match is
    classified ACADEMIC. *)
Theorem no_indicator_defaults_to_academic (question : string) :
  Forall (fun keyword => str_in keyword (lower question) = false)
         (non_academic_keywords +++ academic_keywords) ->
  Forall (fun p => re_search p (lower question) = false) academic_patterns ->
  is_academic_question question = true.
Proof.
  intros Hkw _.
  rewrite is_academic_question_eq.
  apply negb_true_iff.
  apply not_true_is_false. intros H.
  apply existsb_exists in H. destruct H as (k & Hin & Hk).
  rewrite Forall_forall in Hkw.
  rewrite (Hkw k) in Hk; [discriminate|].
  apply in_or_app. now left.
Qed.

Lemma no_indicator_defaults_to_academic_witness :
  is_academic_question "What is the capital of France?" = true.
Proof.
  apply (no_indicator_defaults_to_academic "What is the capital of France?").
  - repeat constructor.
  - repeat constructor.
Defined.

(** C10, as the code has it.  The verdict on a question does not change when
    letters of it are exchanged, one for one, with the same letter in the
    other case.  [is_academic_question] is a function of the question
    alone: it takes no model and no world, so no call leaves the program and
    the same question always gets the same verdict (the case [q' = q]). *)
Theorem is_academic_question_case_insensitive (q q' : string) :
  case_variant q q' ->
  is_academic_question q = is_academic_question q'.
Proof.
  intros H. unfold is_academic_question.
  now rewrite (lower_case_variant q q' H).
Qed.

Lemma is_academic_question_case_insensitive_witness :
  is_academic_question "celebrity gossip" = is_academic_question "CeLEBRITY GoSSIP"
  /\ is_academic_question "CeLEBRITY GoSSIP" = false.
Proof.
  split; [|reflexivity].
  apply (is_academic_question_case_insensitive
           "celebrity gossip" "CeLEBRITY GoSSIP").
  repeat first
    [ apply cv_empty
    | apply cv_char;
      [ first [ apply same_char
              | apply (to_capital "C"%char); reflexivity
              | apply (to_capital "L"%char); reflexivity
              | apply (to_capital "E"%char); reflexivity
              | apply (to_capital "B"%char); reflexivity
              | apply (to_capital "R"%char); reflexivity
              | apply (to_capital "I"%char); reflexivity
              | apply (to_capital "T"%char); reflexivity
              | apply (to_capital "Y"%char); reflexivity
              | apply (to_capital "G"%char); reflexivity
              | apply (to_capital "S"%char); reflexivity
              | apply (to_capital "P"%char); reflexivity ] | ] ].
Defined.

(** C10, as the claim has it, fails: [str.upper] is a change of case that is
    not one for one.  It writes the sharp s as two letters, and the
    upper-cased question holds a keyword that the question did not. *)
Lemma upper_case_can_change_verdict :
  upper ("go" ++ String sharp_s "ip") = "GOSSIP"
  /\ is_academic_question ("go" ++ String sharp_s "ip") = true
  /\ is_academic_question (upper ("go" ++ String sharp_s "ip")) = false.
Proof. repeat split. Qed.

(** ** The document gate *)

Lemma with_calls_nil (w : world) : with_calls w [] = w.
Proof. destruct w; unfold with_calls; simpl. now rewrite app_nil_r. Qed.

Lemma with_calls_app (w : world) (ps qs : list string) :
  with_calls (with_calls w ps) qs = with_calls w (ps +++ qs).
Proof. unfold with_calls; simpl. now rewrite app_assoc. Qed.

Lemma str_slice_to_2000 (content : string) :
  str_slice_to content 2000 = take 2000 content.
Proof. now rewrite str_slice_to_take by lia. Qed.

Lemma is_academic_content_run model (content : string) (w : world) :
  is_academic_content model content w
  = (match model (calls w) (classifier_prompt content) with
     | Reply text => (upper (strip text) =? "ACADEMIC")%string
     | Failure _ => true
     end,
     with_calls w [classifier_prompt content]).
Proof.
  unfold is_academic_content, bind, generate_content, classifier_prompt.
  rewrite str_slice_to_2000.
  destruct (model _ _); reflexivity.
Qed.

(** C1, as the code has it.  The verdict is ACADEMIC when the call fails.
    When the call returns, the verdict is ACADEMIC exactly when the reply,
    stripped and upper-cased, reads "ACADEMIC": every other reply, the
    ones that are neither "ACADEMIC" nor "NON_ACADEMIC" among them, gives
    NON_ACADEMIC. *)
Theorem is_academic_content_verdict model (content : string) (w : world) :
  (forall e, model (calls w) (classifier_prompt content) = Failure e ->
             fst (is_academic_content model content w) = true)
  /\ (forall text, model (calls w) (classifier_prompt content) = Reply text ->
        (fst (is_academic_content model content w) = true
         <-> upper (strip text) = "ACADEMIC")).
Proof.
  rewrite is_academic_content_run. split.
  - intros e ->. reflexivity.
  - intros text ->. simpl. apply String.eqb_eq.
Qed.

Lemma is_academic_content_verdict_witness :
  fst (is_academic_content (always (Failure "503 unavailable"))
         "lecture notes on thermodynamics" (fresh_world empty_db)) = true
  /\ fst (is_academic_content (always (Reply (" academic" ++ nl)))
         "lecture notes on thermodynamics" (fresh_world empty_db)) = true.
Proof.
  split.
  - apply (is_academic_content_verdict (always (Failure "503 unavailable"))
             "lecture notes on thermodynamics" (fresh_world empty_db)
           ) with (e := "503 unavailable").
    reflexivity.
  - apply (is_academic_content_verdict (always (Reply (" academic" ++ nl)))
             "lecture notes on thermodynamics" (fresh_world empty_db)
           ) with (text := " academic" ++ nl).
    + reflexivity.
    + reflexivity.
Defined.

(** C1, as the claim has it, fails: the reply "MAYBE" is neither
    "ACADEMIC" nor "NON_ACADEMIC", and the extract is classified
    NON_ACADEMIC. *)
Lemma unrecognized_reply_is_not_academic :
  (upper (strip "MAYBE") =? "ACADEMIC")%string = false
  /\ (upper (strip "MAYBE") =? "NON_ACADEMIC")%string = false
  /\ fst (is_academic_content (always (Reply "MAYBE"))
            "lecture notes on thermodynamics" (fresh_world empty_db)) = false.
Proof. repeat split. Qed.

(** C2, document path.  The extract and its first 2000 characters get the
    same verdict from the same model in the same world, and leave the same
    world behind. *)
Theorem is_academic_content_first_2000 model (content : string) (w : world) :
  is_academic_content model content w
  = is_academic_content model (take 2000 content) w.
Proof.
  rewrite !is_academic_content_run. unfold classifier_prompt.
  now rewrite take_take.
Qed.

(** C2, question path, fails: the question is read whole.  A keyword past
    the 2000th character decides the verdict. *)
Lemma is_academic_question_reads_past_2000 :
  is_academic_question (replicate 2000 "a" ++ "movie") = false
  /\ is_academic_question (take 2000 (replicate 2000 "a" ++ "movie")) = true.
Proof. split; vm_compute; reflexivity. Qed.

(** ** The assembler *)

Lemma app_nil_r_str (s : string) : s ++ "" = s.
Proof. induction s as [|c s IH]; simpl; [reflexivity | now rewrite IH]. Qed.

Lemma concat_cons (x : string) (xs : list string) :
  String.concat "" (x :: xs) = x ++ String.concat "" xs.
Proof. destruct xs; simpl; [now rewrite app_nil_r_str | reflexivity]. Qed.

Lemma concat_app (xs ys : list string) :
  String.concat "" (xs +++ ys) = String.concat "" xs ++ String.concat "" ys.
Proof.
  induction xs as [|x xs IH]; [reflexivity|].
  change ((x :: xs) +++ ys) with (x :: (xs +++ ys)).
  now rewrite !concat_cons, IH, app_assoc_str.
Qed.

Lemma verdicts_cons model (d : string) (rest : list string) (w : world) :
  verdicts model (d :: rest) w
  = fst (is_academic_content model d w)
    :: verdicts model rest (with_calls w [classifier_prompt d]).
Proof.
  cbn [verdicts]. rewrite is_academic_content_run. reflexivity.
Qed.

Lemma classify_documents_run model (docs : list string) :
  forall (a n : list string) (w : world),
    classify_documents model docs a n w
    = ((a +++ chosen true docs (verdicts model docs w),
        n +++ chosen false docs (verdicts model docs w)),
       with_calls w (map classifier_prompt docs)).
Proof.
  induction docs as [|d rest IH]; intros a n w.
  - cbn. now rewrite !app_nil_r, with_calls_nil.
  - rewrite verdicts_cons. cbn [classify_documents]. unfold bind.
    destruct (is_academic_content model d w) as [b w1] eqn:E.
    assert (Hw : w1 = with_calls w [classifier_prompt d])
      by (rewrite is_academic_content_run in E; now inversion E).
    subst w1. cbn [fst].
    destruct b; rewrite IH, with_calls_app; unfold chosen; cbn;
      now rewrite <- !app_assoc.
Qed.

Lemma chosen_all_false (docs : list string) (vs : list bool) :
  List.length vs = List.length docs ->
  Forall (fun academic => academic = false) vs ->
  chosen true docs vs = [] /\ chosen false docs vs = docs.
Proof.
  revert vs; induction docs as [|d rest IH]; intros [|v vs] L H;
    try discriminate; [now split|].
  inversion H as [|? ? Hv Hvs]; subst. injection L as L.
  destruct (IH vs L Hvs) as [A B]. unfold chosen in *; cbn.
  now rewrite A, B.
Qed.

Lemma verdicts_length model (docs : list string) (w : world) :
  List.length (verdicts model docs w) = List.length docs.
Proof.
  revert w; induction docs as [|d rest IH]; intros w; [reflexivity|].
  rewrite verdicts_cons. cbn. now rewrite IH.
Qed.

Lemma complete_and_generate_run model (parts : list string)
    (question : string) (chat_history : list message) (w : world) :
  let prompt :=
    String.concat "" parts
    ++ match chat_history with
       | [] => ""
       | _ => "\n\nPrevious Conversation:"
              ++ String.concat ""
                   (map history_part (list_slice_from chat_history (-10)))
       end
    ++ "\n\nCurrent Question: " ++ question
    ++ "\n\nPlease provide a comprehensive, academic response:" in
  complete_and_generate model parts question chat_history w
  = (match model (calls w) prompt with
     | Reply text => GenOk text true
     | Failure e => GenError ("Error generating response: " ++ e)
     end,
     with_calls w [prompt]).
Proof.
  intros prompt. unfold complete_and_generate, bind, generate_content.
  match goal with
  | |- context [model (calls w) ?p] => replace p with prompt
  end.
  - destruct (model (calls w) prompt); reflexivity.
  - unfold prompt.
    destruct chat_history as [|m h];
      rewrite !concat_app, !concat_cons;
      change (String.concat "" []) with "";
      now rewrite ?app_nil_r_str, ?app_assoc_str.
Qed.

(** C7.  A question the question gate refuses is answered at once with the
    off-topic message, [success] true and [is_academic] false; the world is
    left as it was: no extract is classified and nothing is sent to the
    model. *)
Theorem off_topic_question_short_circuits model (question : string)
    (document_contents : list string) (chat_history : list message)
    (w : world) :
  is_academic_question question = false ->
  generate_response model question document_contents chat_history w
  = (GenOk off_topic_refusal false, w).
Proof.
  intros H. unfold generate_response. now rewrite H.
Qed.

Lemma off_topic_question_short_circuits_witness :
  generate_response (always (Reply "ACADEMIC"))
    "What's the latest celebrity gossip?" ["lecture notes on thermodynamics"]
    [] (fresh_world empty_db)
  = (GenOk off_topic_refusal false, fresh_world empty_db).
Proof.
  apply (off_topic_question_short_circuits (always (Reply "ACADEMIC"))
           "What's the latest celebrity gossip?"
           ["lecture notes on thermodynamics"] [] (fresh_world empty_db)).
  reflexivity.
Defined.

(** C3, as the code has it.  With an academic question and a non-empty list
    of extracts that all get the verdict NON_ACADEMIC, [generate_response]
    returns the "document not academic" message with [success] true and
    [is_academic] false.  The model has been called once for each extract,
    with the classifier prompt, and not once more: the answer is never
    asked for. *)
Theorem all_extracts_non_academic_short_circuits model (question : string)
    (document_contents : list string) (chat_history : list message)
    (w : world) :
  is_academic_question question = true ->
  document_contents <> [] ->
  Forall (fun academic => academic = false)
         (verdicts model document_contents w) ->
  generate_response model question document_contents chat_history w
  = (GenOk not_academic_refusal false,
     with_calls w (map classifier_prompt document_contents)).
Proof.
  intros Hq Hne Hv. unfold generate_response. rewrite Hq. cbn [negb].
  destruct document_contents as [|d rest]; [now elim Hne|].
  unfold bind. rewrite classify_documents_run.
  destruct (chosen_all_false (d :: rest) _ (verdicts_length model _ w) Hv)
    as [A B].
  rewrite A, B. reflexivity.
Qed.

Lemma all_extracts_non_academic_short_circuits_witness :
  generate_response (always (Reply "NON_ACADEMIC")) "What is entropy?"
    ["my resume"; "a shopping list"] [] (fresh_world empty_db)
  = (GenOk not_academic_refusal false,
     with_calls (fresh_world empty_db)
       [classifier_prompt "my resume"; classifier_prompt "a shopping list"]).
Proof.
  apply (all_extracts_non_academic_short_circuits
           (always (Reply "NON_ACADEMIC")) "What is entropy?"
           ["my resume"; "a shopping list"] [] (fresh_world empty_db)).
  - reflexivity.
  - discriminate.
  - repeat constructor.
Defined.

(** C3, as the claim has it, fails: the refusal comes back, but the model
    has been called, once, to classify the extract. *)
Lemma classification_calls_the_model :
  calls (fresh_world empty_db) = []
  /\ fst (generate_response (always (Reply "NON_ACADEMIC")) "What is entropy?"
            ["my resume"] [] (fresh_world empty_db))
     = GenOk not_academic_refusal false
  /\ calls (snd (generate_response (always (Reply "NON_ACADEMIC"))
                   "What is entropy?" ["my resume"] [] (fresh_world empty_db)))
     = [academic_checker_prompt ++ "my resume"].
Proof. repeat split. Qed.

Lemma list_slice_from_last_ten (earlier recent : list message) :
  List.length recent = 10 ->
  list_slice_from (earlier +++ recent) (-10) = recent.
Proof.
  intros Hlen. unfold list_slice_from, slice_index.
  change (-10 <? 0)%Z with true. cbv iota.
  rewrite List.length_app, Hlen.
  replace (Z.to_nat (Z.of_nat (List.length earlier + 10) + -10))
    with (List.length earlier) by lia.
  now rewrite skipn_app, skipn_all, Nat.sub_diag.
Qed.

(** C6.  When [generate_response] gets as far as the prompt (the question
    is academic, and there is no extract or at least one academic extract)
    with a history of more than ten turns, [earlier +++ recent] with ten
    turns in [recent], the one thing it sends to the model after the
    classifier prompts is the prompt below: its history section holds the
    ten turns of [recent], oldest first, each as the separator followed by
    "User" or "Assistant", a colon and the content; no turn of [earlier]
    is in it.  The separator is the source's escaped [\\n], the two
    characters backslash and n. *)
Theorem history_window_is_last_ten model (question : string)
    (document_contents : list string) (earlier recent : list message)
    (w : world) :
  is_academic_question question = true ->
  earlier <> [] ->
  List.length recent = 10 ->
  document_contents = []
  \/ chosen true document_contents (verdicts model document_contents w) <> [] ->
  calls (snd (generate_response model question document_contents
                (earlier +++ recent) w))
  = calls w +++ map classifier_prompt document_contents
    +++ [ system_prompt
          ++ documents_section
               (chosen true document_contents
                  (verdicts model document_contents w))
          ++ "\n\nPrevious Conversation:"
          ++ String.concat ""
               (map (fun turn =>
                       "\n"
                       ++ (if (m_role turn =? "user")%string
                           then "User" else "Assistant")
                       ++ ": " ++ m_content turn)
                    recent)
          ++ "\n\nCurrent Question: " ++ question
          ++ "\n\nPlease provide a comprehensive, academic response:" ].
Proof.
  intros Hq _ Hlen Hdocs.
  pose proof (list_slice_from_last_ten earlier recent Hlen) as Hslice.
  assert (Hhist : earlier +++ recent <> [])
    by (intros E; apply (f_equal (@List.length _)) in E;
        rewrite List.length_app, Hlen in E; cbn in E; lia).
  unfold generate_response. rewrite Hq. cbn [negb].
  destruct document_contents as [|d rest].
  - rewrite complete_and_generate_run. cbn [snd].
    destruct (earlier +++ recent) as [|m h] eqn:E; [now elim Hhist|].
    rewrite Hslice. cbn [map]. unfold with_calls, documents_section, chosen.
    cbn [calls combine filter map]. rewrite concat_cons.
    change (String.concat "" []) with "". cbn [app].
    rewrite app_nil_r_str, app_assoc_str. reflexivity.
  - destruct Hdocs as [Hdocs|Hdocs]; [discriminate|].
    unfold bind. rewrite classify_documents_run. cbn [app].
    destruct (chosen true (d :: rest) _) as [|a acad] eqn:A; [now elim Hdocs|].
    destruct (chosen false (d :: rest) _) as [|x non]; cbv beta iota;
      rewrite complete_and_generate_run; cbn [snd];
      (destruct (earlier +++ recent) as [|m h] eqn:E; [now elim Hhist|]);
      rewrite Hslice, with_calls_app; unfold with_calls; cbn [calls];
      do 3 f_equal; rewrite !concat_cons;
      change (String.concat "" []) with ""; unfold documents_section;
      now rewrite ?app_nil_r_str, ?app_assoc_str.
Qed.

Lemma history_window_is_last_ten_witness :
  calls (snd (generate_response (always (Reply "ACADEMIC")) "What is entropy?"
                ["lecture notes on thermodynamics"]
                (first_two_turns +++ last_ten_turns) (fresh_world empty_db)))
  = [ classifier_prompt "lecture notes on thermodynamics";
      system_prompt
      ++ "\n\nDocument Content:\n--- Document 1 ---\nlecture notes on thermodynamics"
      ++ "\n\nPrevious Conversation:"
      ++ "\nUser: turn 3\nAssistant: turn 4\nUser: turn 5\nAssistant: turn 6"
      ++ "\nUser: turn 7\nAssistant: turn 8\nUser: turn 9\nAssistant: turn 10"
      ++ "\nUser: turn 11\nAssistant: turn 12"
      ++ "\n\nCurrent Question: What is entropy?"
      ++ "\n\nPlease provide a comprehensive, academic response:" ].
Proof.
  etransitivity.
  - apply (history_window_is_last_ten (always (Reply "ACADEMIC"))
             "What is entropy?" ["lecture notes on thermodynamics"]
             first_two_turns last_ten_turns (fresh_world empty_db)).
    + reflexivity.
    + discriminate.
    + reflexivity.
    + right. discriminate.
  - vm_compute. reflexivity.
Defined.

(** ** Titles and summaries *)

Lemma clipped_length (t : string) (m : Z) :
  (3 <= m)%Z ->
  (len (if (len t >? m)%Z then str_slice_to t (m - 3) ++ "..." else t) <= m)%Z.
Proof.
  intros Hm. destruct (len t >? m)%Z eqn:E.
  - rewrite Z.gtb_ltb in E. apply Z.ltb_lt in E.
    rewrite str_slice_to_take by lia.
    unfold len in *. rewrite str_length_app, take_length. cbn [String.length].
    lia.
  - rewrite Z.gtb_ltb in E. apply Z.ltb_ge in E. exact E.
Qed.

Lemma clipped_text (t : string) (m : Z) :
  (3 <= m)%Z -> (len t > m)%Z ->
  (if (len t >? m)%Z then str_slice_to t (m - 3) ++ "..." else t)
  = take (Z.to_nat (m - 3)) t ++ "...".
Proof.
  intros Hm Hlong.
  replace (len t >? m)%Z with true
    by (symmetry; rewrite Z.gtb_ltb; apply Z.ltb_lt; lia).
  now rewrite str_slice_to_take by lia.
Qed.

(** C5, as the code has it, for a bound of at least 3 (the width of the
    ellipsis).  The title is never longer than the bound, whatever the model
    does.  The summary is never longer than the bound when the model
    replies.  A reply that is too long after stripping is cut to its first
    [max_length - 3] characters, followed by three dots.  When the call for
    a summary fails, the result is the fixed text followed by the text of
    the error, whatever its length. *)
Theorem synthesized_text_is_bounded model (text : string) (max_length : Z)
    (w : world) :
  (3 <= max_length)%Z ->
  (len (fst (generate_chat_title model text max_length w)) <= max_length)%Z
  /\ (forall reply,
        model (calls w) (summary_prompt text max_length) = Reply reply ->
        (len (fst (summarize_document model text max_length w))
         <= max_length)%Z)
  /\ (forall reply,
        model (calls w) (title_prompt text max_length) = Reply reply ->
        (len (strip reply) > max_length)%Z ->
        fst (generate_chat_title model text max_length w)
        = take (Z.to_nat (max_length - 3)) (strip reply) ++ "...")
  /\ (forall reply,
        model (calls w) (summary_prompt text max_length) = Reply reply ->
        (len (strip reply) > max_length)%Z ->
        fst (summarize_document model text max_length w)
        = take (Z.to_nat (max_length - 3)) (strip reply) ++ "...")
  /\ (forall e,
        model (calls w) (summary_prompt text max_length) = Failure e ->
        fst (summarize_document model text max_length w)
        = "Document summary unavailable: " ++ e).
Proof.
  intros Hm.
  unfold generate_chat_title, summarize_document, bind, generate_content, ret.
  repeat split.
  - destruct (model (calls w) (title_prompt text max_length));
      cbn [fst]; now apply clipped_length.
  - intros reply ->. cbn [fst]. now apply clipped_length.
  - intros reply -> Hlong. cbn [fst]. now apply clipped_text.
  - intros reply -> Hlong. cbn [fst]. now apply clipped_text.
  - intros e ->. reflexivity.
Qed.

Lemma synthesized_text_is_bounded_witness :
  (len (fst (generate_chat_title (always (Failure "503 unavailable"))
          "A very long first message exceeding fifty characters total length here"
          50 (fresh_world empty_db))) <=? 50)%Z = true
  /\ fst (generate_chat_title (always (Failure "503 unavailable"))
          "A very long first message exceeding fifty characters total length here"
          50 (fresh_world empty_db))
     = "A very long first message exceeding fifty chara...".
Proof.
  split; [|reflexivity].
  apply Z.leb_le.
  apply (synthesized_text_is_bounded (always (Failure "503 unavailable"))
           "A very long first message exceeding fifty characters total length here"
           50 (fresh_world empty_db)).
  lia.
Defined.

(** C5, as the claim has it, fails twice.  When the call for a summary
    fails, the text that comes back is as long as the error makes it.  And
    with a bound under 3 the cut counts from the end of the reply: the
    title keeps all but one character of it. *)
Lemma synthesized_text_can_exceed_bound :
  fst (summarize_document (always (Failure "429 quota exceeded"))
         "lecture notes on thermodynamics" 20 (fresh_world empty_db))
  = "Document summary unavailable: 429 quota exceeded"
  /\ (len (fst (summarize_document (always (Failure "429 quota exceeded"))
                  "lecture notes on thermodynamics" 20 (fresh_world empty_db)))
      >? 20)%Z = true
  /\ fst (generate_chat_title (always (Reply "Entropy"))
            "What is entropy?" 2 (fresh_world empty_db))
     = "Entrop...".
Proof. repeat split. Qed.

(** ** The message route *)

Section Route.

Variable model : list string -> string -> outcome.
Variable db_fault : nat -> option string.













End Route.


(** ** The file processor *)

Lemma prefix_char (sep c : ascii) (t : string) :
  prefix (String sep "") (String c t) = Ascii.eqb c sep.
Proof.
  cbn. destruct (ascii_dec sep c) as [->|N].
  - rewrite Ascii.eqb_refl. now destruct t.
  - symmetry. apply Ascii.eqb_neq. congruence.
Qed.

Lemma rsplit1_none (sep : ascii) (s : string) :
  str_in (String sep "") s = false <-> rsplit1 sep s = None.
Proof.
  induction s as [|c t IH].
  - split; reflexivity.
  - cbn [str_in rsplit1]. rewrite prefix_char.
    destruct (Ascii.eqb c sep).
    + split; [discriminate|]. destruct (rsplit1 sep t) as [[? ?]|]; discriminate.
    + rewrite IH. destruct (rsplit1 sep t) as [[? ?]|]; split; congruence.
Qed.

Lemma rsplit1_last (sep : ascii) (stem after : string) :
  rsplit1 sep after = None ->
  rsplit1 sep (stem ++ String sep after) = Some (stem, after).
Proof.
  intros H. induction stem as [|c stem IH].
  - cbn. now rewrite H, Ascii.eqb_refl.
  - cbn [append rsplit1]. now rewrite IH.
Qed.

Lemma is_allowed_file_type (filename : string) :
  is_allowed_file filename = str_mem (get_file_type filename) allowed_extensions.
Proof.
  unfold is_allowed_file, get_file_type.
  destruct (negb (str_in "." filename)); [reflexivity|].
  destruct (rsplit1 "." filename) as [[? ?]|]; reflexivity.
Qed.

(** X1.  Only the text after the last dot of a file name counts, and its
    case does not: a name that ends in a dot and an extension without dot
    is allowed exactly when the lower-cased extension is one of the nine,
    and that lower-cased extension is its file type, whatever stands before
    the last dot. *)
Theorem last_extension_decides (stem extension : string) :
  str_in "." extension = false ->
  is_allowed_file (stem ++ "." ++ extension)
  = str_mem (lower extension) allowed_extensions
  /\ get_file_type (stem ++ "." ++ extension) = lower extension.
Proof.
  intros H. apply rsplit1_none in H.
  unfold is_allowed_file, get_file_type.
  change (stem ++ "." ++ extension) with (stem ++ String "." extension).
  rewrite (rsplit1_last "." stem extension H).
  replace (str_in "." (stem ++ String "." extension)) with true.
  - split; reflexivity.
  - symmetry. apply (str_in_app stem "." extension).
Qed.

Lemma last_extension_decides_witness :
  (is_allowed_file "thesis.final.PDF" = true
   /\ get_file_type "thesis.final.PDF" = "pdf")
  /\ (is_allowed_file "notes.pdf.exe" = false
      /\ get_file_type "notes.pdf.exe" = "exe").
Proof.
  split.
  - apply (last_extension_decides "thesis.final" "PDF"). reflexivity.
  - apply (last_extension_decides "notes.pdf" "exe"). reflexivity.
Defined.

Section ExtractionFacts.

Variable fitz_pages : list Byte.byte -> string + list string.
Variable docx_paragraphs : list Byte.byte -> string + list string.
Variable pptx_slides : list Byte.byte -> string + list (list (option string)).
Variable pil_image : list Byte.byte -> string + image_info.

Let extract := extract_content fitz_pages docx_paragraphs pptx_slides pil_image.

(** X2.  [extract_content] and [validate_file] agree on the file types.  A
    file whose name [is_allowed_file] refuses is not extracted, with the
    error "Unsupported file type: " and its type.  A file whose name is
    allowed is never refused for its type: it is extracted, or a library
    has raised and the error starts with "Error ". *)
Theorem extraction_agrees_with_validation (file_data : list Byte.byte)
    (filename : string) :
  (is_allowed_file filename = false ->
   extract file_data filename
   = NotExtracted ("Unsupported file type: " ++ get_file_type filename)
                  (get_file_type filename) filename)
  /\ (is_allowed_file filename = true ->
      match extract file_data filename with
      | Extracted _ _ _ => True
      | NotExtracted e _ _ => prefix "Error " e = true
      end).
Proof.
  rewrite is_allowed_file_type.
  unfold extract, extract_content, str_mem, allowed_extensions.
  unfold extract_text_from_pdf, extract_text_from_docx, extract_text_from_doc,
    extract_text_from_pptx, extract_text_from_ppt, process_image.
  generalize (get_file_type filename) as t. intros t.
  cbn [existsb].
  destruct (t =? "pdf")%string, (t =? "doc")%string, (t =? "docx")%string,
    (t =? "ppt")%string, (t =? "pptx")%string, (t =? "jpg")%string,
    (t =? "jpeg")%string, (t =? "png")%string, (t =? "gif")%string;
    cbn [orb];
    (split; [intros H; try discriminate H; reflexivity
            | intros H; try discriminate H;
              try destruct (fitz_pages file_data);
              try destruct (docx_paragraphs file_data);
              try destruct (pptx_slides file_data);
              try destruct (pil_image file_data);
              first [exact I | reflexivity]]).
Qed.

(** X3.  What [extract_content] returns as extracted content is never
    empty and never only white space: a blank extract is replaced by the
    "No extractable content" notice.  The result carries the file's type
    and name. *)
Theorem extracted_content_is_not_blank (file_data : list Byte.byte)
    (filename content file_type name : string) :
  extract file_data filename = Extracted content file_type name ->
  strip content <> ""
  /\ file_type = get_file_type filename /\ name = filename.
Proof.
  unfold extract, extract_content.
  match goal with
  | |- context [match ?x with inl _ => _ | inr _ => _ end] =>
      destruct x as [e|c]
  end; [discriminate|].
  intros H. injection H as <- <- <-. split; [|split; reflexivity].
  destruct ((c =? "") || (strip c =? ""))%string eqn:B.
  - change (strip (String "N" ("o extractable content found in " ++ filename
       ++ ". The file may be empty, corrupted, or contain only images/graphics."))
            <> "").
    unfold strip. cbn [lstrip]. change (is_space "N") with false. cbv iota.
    cbn [rstrip]. destruct (rstrip _); discriminate.
  - apply orb_false_iff in B. destruct B as [_ B].
    now apply String.eqb_neq.
Qed.

End ExtractionFacts.

Lemma extraction_agrees_with_validation_witness :
  extract_content (reads_pages []) (reads_pages []) (reads_slides [])
    (reads_image a_png) [] "setup.exe"
  = NotExtracted "Unsupported file type: exe" "exe" "setup.exe"
  /\ validate_file [] "setup.exe"
     = Invalid "File type not supported. Supported types: PDF, Word (.doc, .docx), PowerPoint (.ppt, .pptx), Images (.jpg, .jpeg, .png, .gif)".
Proof.
  split; [|reflexivity].
  apply (extraction_agrees_with_validation (reads_pages []) (reads_pages [])
           (reads_slides []) (reads_image a_png) [] "setup.exe").
  reflexivity.
Defined.

Lemma extracted_content_is_not_blank_witness :
  extract_content (reads_pages [" "; nl]) (reads_pages []) (reads_slides [])
    (reads_image a_png) [] "scan.pdf"
  = Extracted "No extractable content found in scan.pdf. The file may be empty, corrupted, or contain only images/graphics."
      "pdf" "scan.pdf"
  /\ strip "No extractable content found in scan.pdf. The file may be empty, corrupted, or contain only images/graphics."
     <> "".
Proof.
  split; [reflexivity|].
  apply (extracted_content_is_not_blank (reads_pages [" "; nl]) (reads_pages [])
           (reads_slides []) (reads_image a_png) [] "scan.pdf" _ "pdf" "scan.pdf").
  reflexivity.
Defined.

Lemma rfind_bounds (c : ascii) (s : string) :
  (-1 <= rfind c s < len s)%Z.
Proof.
  unfold len. induction s as [|x t IH]; cbn [rfind String.length]; [lia|].
  destruct (0 <=? rfind c t)%Z eqn:E; [apply Z.leb_le in E; lia|].
  destruct (Ascii.eqb x c); lia.
Qed.

Lemma rfind_absent (c : ascii) (s : string) :
  str_in (String c "") s = false -> rfind c s = (-1)%Z.
Proof.
  induction s as [|x t IH]; [reflexivity|].
  cbn [str_in rfind]. rewrite prefix_char.
  destruct (Ascii.eqb x c); [discriminate|].
  intros H. now rewrite (IH H).
Qed.

Lemma len_take (n : nat) (s : string) :
  len (take n s) = Z.min (Z.of_nat n) (len s).
Proof. unfold len. rewrite take_length. lia. Qed.

(** X4.  For a bound that is not negative, the preview of a content within
    the bound is the content itself; the preview of a longer content is a
    beginning of it followed by three dots, and that beginning has at most
    [max_length] and at least [max_length - 48] characters. *)
Theorem preview_is_a_bounded_beginning (content : string) (max_length : Z) :
  (0 <= max_length)%Z ->
  (len content <= max_length ->
   create_file_preview content max_length = content)%Z
  /\ (max_length < len content ->
      exists n : nat,
        create_file_preview content max_length = take n content ++ "..."
        /\ max_length - 48 <= Z.of_nat n <= max_length)%Z.
Proof.
  intros Hm. unfold create_file_preview. split.
  - intros H. now replace (len content <=? max_length)%Z with true
      by (symmetry; now apply Z.leb_le).
  - intros H.
    replace (len content <=? max_length)%Z with false
      by (symmetry; apply Z.leb_gt; lia).
    rewrite (str_slice_to_take content max_length Hm).
    pose proof (rfind_bounds "." (take (Z.to_nat max_length) content)) as Bs.
    pose proof (rfind_bounds " " (take (Z.to_nat max_length) content)) as Bw.
    rewrite len_take in Bs, Bw.
    destruct (_ >? max_length - 50)%Z eqn:E1.
    + rewrite Z.gtb_ltb in E1. apply Z.ltb_lt in E1.
      rewrite str_slice_to_take by lia.
      eexists. split; [reflexivity | lia].
    + rewrite Z.gtb_ltb in E1. apply Z.ltb_ge in E1.
      destruct (_ >? max_length - 20)%Z eqn:E2.
      * rewrite Z.gtb_ltb in E2. apply Z.ltb_lt in E2.
        rewrite str_slice_to_take by lia.
        eexists. split; [reflexivity | lia].
      * eexists. split; [reflexivity | lia].
Qed.

Lemma preview_is_a_bounded_beginning_witness :
  exists n : nat,
    create_file_preview
      "Entropy measures disorder. It never decreases in an isolated system, which is the second law."
      60
    = take n "Entropy measures disorder. It never decreases in an isolated system, which is the second law."
      ++ "..."
    /\ (60 - 48 <= Z.of_nat n <= 60)%Z.
Proof.
  apply (preview_is_a_bounded_beginning
           "Entropy measures disorder. It never decreases in an isolated system, which is the second law."
           60).
  - lia.
  - vm_compute. reflexivity.
Defined.

(** X5.  With a bound under 49 the test for a sentence end passes even when
    there is none: the preview of a longer content with no full stop among
    its first [max_length] characters is the three dots alone. *)
Theorem small_preview_keeps_nothing (content : string) (max_length : Z) :
  (0 <= max_length <= 48)%Z ->
  (max_length < len content)%Z ->
  str_in "." (take (Z.to_nat max_length) content) = false ->
  create_file_preview content max_length = "...".
Proof.
  intros Hm Hlong Hdot. unfold create_file_preview.
  replace (len content <=? max_length)%Z with false
    by (symmetry; apply Z.leb_gt; lia).
  rewrite (str_slice_to_take content max_length) by lia.
  rewrite (rfind_absent "." _ Hdot).
  replace (-1 >? max_length - 50)%Z with true
    by (symmetry; rewrite Z.gtb_ltb; apply Z.ltb_lt; lia).
  destruct content; reflexivity.
Qed.

Lemma small_preview_keeps_nothing_witness :
  create_file_preview "Lecture notes on thermodynamics and statistical mechanics" 40
  = "...".
Proof.
  apply (small_preview_keeps_nothing
           "Lecture notes on thermodynamics and statistical mechanics" 40).
  - lia.
  - vm_compute. reflexivity.
  - reflexivity.
Defined.

(** ** The validators *)

Lemma existsb_or {A} (f g : A -> bool) (l : list A) :
  existsb (fun x => if f x then true else g x) l = existsb f l || existsb g l.
Proof.
  induction l as [|x l IH]; [reflexivity|]. cbn. rewrite IH.
  destruct (f x), (g x), (existsb f l); reflexivity.
Qed.

Lemma existsb_same {A} (f g : A -> bool) (l : list A) :
  (forall x, f x = g x) -> existsb f l = existsb g l.
Proof.
  intros H. induction l as [|x l IH]; [reflexivity|]. cbn. now rewrite H, IH.
Qed.

(** a pattern that is one alternation of literal words finds a match
    exactly in the texts that contain one of the words *)
Lemma re_search_one_of (words : list string) (s : string) :
  re_search [OneOf words] s = existsb (fun w => str_in w s) words.
Proof.
  unfold re_search. generalize (@None ascii) as prev.
  induction s as [|c t IH]; intros prev.
  - cbn. now destruct (existsb _ words).
  - cbn [search_from match_here]. rewrite (IH (Some c)).
    cbn [str_in].
    rewrite (existsb_or (fun w => prefix w (String c t)) (fun w => str_in w t)).
    replace (existsb (fun w => if prefix w (String c t) then true else false) words)
      with (existsb (fun w => prefix w (String c t)) words)
      by (apply existsb_same; intros w; now destruct (prefix w _)).
    now destruct (existsb _ words).
Qed.

Lemma has_char_str_in (P : ascii -> bool) (s : string) :
  has_char P s <-> exists c, P c = true /\ str_in (String c "") s = true.
Proof.
  split.
  - intros (a & c & b & -> & Hc). exists c. split; [exact Hc|].
    apply (str_in_app a (String c "") b).
  - intros (c & Hc & H). apply str_in_iff in H. destruct H as (a & b & ->).
    now exists a, c, b.
Qed.

Lemma capital_words (w : string) :
  In w (match pattern_capital with [OneOf ws] => ws | _ => [] end)
  <-> exists c, w = String c "" /\ between 65 90 c = true.
Proof.
  split.
  - cbn. intros H.
    repeat (destruct H as [<-|H]; [eexists; split; reflexivity|]).
    contradiction.
  - intros (c & -> & Hc).
    destruct c as [[] [] [] [] [] [] [] []]; try discriminate Hc;
      cbn; repeat first [left; reflexivity | right].
Qed.

Lemma small_words (w : string) :
  In w (match pattern_small with [OneOf ws] => ws | _ => [] end)
  <-> exists c, w = String c "" /\ between 97 122 c = true.
Proof.
  split.
  - cbn. intros H.
    repeat (destruct H as [<-|H]; [eexists; split; reflexivity|]).
    contradiction.
  - intros (c & -> & Hc).
    destruct c as [[] [] [] [] [] [] [] []]; try discriminate Hc;
      cbn; repeat first [left; reflexivity | right].
Qed.

Lemma search_capital (s : string) :
  re_search pattern_capital s = true <-> has_char (between 65 90) s.
Proof.
  unfold pattern_capital at 1. rewrite re_search_one_of, existsb_exists.
  rewrite has_char_str_in. split.
  - intros (w & Hw & H). apply capital_words in Hw.
    destruct Hw as (c & -> & Hc). now exists c.
  - intros (c & Hc & H). exists (String c ""). split; [|exact H].
    apply capital_words. now exists c.
Qed.

Lemma search_small (s : string) :
  re_search pattern_small s = true <-> has_char (between 97 122) s.
Proof.
  unfold pattern_small at 1. rewrite re_search_one_of, existsb_exists.
  rewrite has_char_str_in. split.
  - intros (w & Hw & H). apply small_words in Hw.
    destruct Hw as (c & -> & Hc). now exists c.
  - intros (c & Hc & H). exists (String c ""). split; [|exact H].
    apply small_words. now exists c.
Qed.

Lemma search_backslash_d (s : string) :
  re_search pattern_backslash_d s = str_in "\d" s.
Proof.
  unfold pattern_backslash_d. rewrite re_search_one_of. cbn.
  now rewrite orb_false_r.
Qed.

(** X6.  [validate_password] accepts exactly the passwords of at least
    eight characters that hold a letter A-Z, a letter a-z and, next to
    each other, a backslash and the letter d: that is what the pattern of
    the number rule asks for.  A digit is neither needed nor enough. *)
Theorem accepted_passwords (password : string) :
  fst (validate_password password) = true
  <-> (8 <= len password)%Z
      /\ has_char (between 65 90) password
      /\ has_char (between 97 122) password
      /\ exists a b, password = a ++ "\d" ++ b.
Proof.
  rewrite <- search_capital, <- search_small, <- str_in_iff,
    <- search_backslash_d.
  unfold validate_password.
  destruct (len password <? 8)%Z eqn:L.
  - apply Z.ltb_lt in L. cbn. split; [discriminate | lia].
  - apply Z.ltb_ge in L.
    destruct (re_search pattern_capital password),
      (re_search pattern_small password),
      (re_search pattern_backslash_d password); cbn;
      split; try discriminate; try tauto;
      intros (_ & A & B & C); discriminate.
Qed.

Lemma no_backslash (P : ascii -> bool) (x s : string) :
  P "\"%char = false -> all_chars P s = true ->
  str_in (String "\" x) s = false.
Proof.
  intros HP. induction s as [|c t IH]; [reflexivity|].
  cbn [all_chars str_in]. intros H. apply andb_true_iff in H.
  destruct H as [Hc Ht].
  replace (prefix (String "\" x) (String c t)) with false; [now apply IH|].
  cbn [prefix]. destruct (ascii_dec "\" c) as [<-|]; [congruence | reflexivity].
Qed.

(** X7.  A password made of ASCII letters and digits only is never
    accepted.  When it has eight characters or more, a capital and a small
    letter, it is refused with "Password must contain at least one number",
    digits or not. *)
Theorem alphanumeric_password_is_refused (password : string) :
  all_chars is_letter_or_digit password = true ->
  fst (validate_password password) = false
  /\ ((8 <= len password)%Z ->
      has_char (between 65 90) password ->
      has_char (between 97 122) password ->
      validate_password password
      = (false, "Password must contain at least one number")).
Proof.
  intros H.
  pose proof (no_backslash is_letter_or_digit "d" password eq_refl H) as D.
  rewrite <- search_backslash_d in D.
  unfold validate_password. rewrite D. split.
  - destruct (len password <? 8)%Z, (re_search pattern_capital password),
      (re_search pattern_small password); reflexivity.
  - intros L A B. apply search_capital in A. apply search_small in B.
    rewrite A, B.
    replace (len password <? 8)%Z with false
      by (symmetry; apply Z.ltb_ge; lia).
    reflexivity.
Qed.

Lemma alphanumeric_password_is_refused_witness :
  validate_password "Testpassword123"
  = (false, "Password must contain at least one number").
Proof.
  apply (alphanumeric_password_is_refused "Testpassword123").
  - reflexivity.
  - vm_compute. discriminate.
  - exists "", "T"%char, "estpassword123". split; reflexivity.
  - exists "T", "e"%char, "stpassword123". split; reflexivity.
Defined.

Lemma name_chars_to_end_iff (s : string) :
  name_chars_to_end s = true
  <-> exists name,
        all_chars is_name_char name = true /\ (s = name \/ s = name ++ nl).
Proof.
  split.
  - induction s as [|c t IH]; intros H.
    + exists "". split; [reflexivity | now left].
    + cbn [name_chars_to_end] in H. destruct (is_name_char c) eqn:Hc.
      * destruct (IH H) as (name & Hn & Hs). exists (String c name).
        split; [cbn; now rewrite Hc|].
        destruct Hs as [->| ->]; [now left | now right].
      * apply andb_true_iff in H. destruct H as [H10 Ht].
        apply Nat.eqb_eq in H10. apply String.eqb_eq in Ht. subst t.
        exists "". split; [reflexivity|]. right.
        assert (c = ascii_of_nat 10) as ->
          by (rewrite <- H10; unfold code; symmetry;
              apply ascii_nat_embedding).
        reflexivity.
  - intros (name & Hn & Hs). revert s Hs.
    induction name as [|c name IH]; intros s Hs.
    + destruct Hs as [->| ->]; reflexivity.
    + cbn [all_chars] in Hn. apply andb_true_iff in Hn.
      destruct Hn as [Hc Hn].
      destruct Hs as [->| ->]; cbn [append name_chars_to_end]; rewrite Hc;
        apply (IH Hn); [now left | now right].
Qed.

Lemma match_name_iff (s : string) :
  match_name s = true
  <-> exists name,
        name <> "" /\ all_chars is_name_char name = true
        /\ (s = name \/ s = name ++ nl).
Proof.
  split.
  - destruct s as [|c t]; [discriminate|]. cbn [match_name]. intros H.
    apply andb_true_iff in H. destruct H as [Hc Ht].
    apply name_chars_to_end_iff in Ht. destruct Ht as (name & Hn & Hs).
    exists (String c name). split; [discriminate|].
    split; [cbn; now rewrite Hc|].
    destruct Hs as [->| ->]; [now left | now right].
  - intros (name & Hne & Hn & Hs).
    destruct name as [|c name]; [now elim Hne|].
    cbn [all_chars] in Hn. apply andb_true_iff in Hn. destruct Hn as [Hc Hn].
    assert (E : exists t, s = String c t
                          /\ (t = name \/ t = name ++ nl))
      by (destruct Hs as [->| ->]; eexists; split;
          [reflexivity | now left | reflexivity | now right]).
    destruct E as (t & -> & Ht). cbn [match_name]. rewrite Hc. cbn.
    apply name_chars_to_end_iff. now exists name.
Qed.

(** X8.  [validate_username] accepts exactly the texts of 3 to 50
    characters that are a name of letters A-Z and a-z, digits and
    underscores, or such a name followed by one line feed: the [$] of the
    pattern also finds the end before a last line feed. *)
Theorem accepted_usernames (username : string) :
  fst (validate_username username) = true
  <-> (3 <= len username <= 50)%Z
      /\ exists name,
           name <> "" /\ all_chars is_name_char name = true
           /\ (username = name \/ username = name ++ nl).
Proof.
  rewrite <- match_name_iff. unfold validate_username.
  destruct (len username <? 3)%Z eqn:L3.
  - apply Z.ltb_lt in L3. cbn. split; [discriminate | lia].
  - apply Z.ltb_ge in L3.
    destruct (len username >? 50)%Z eqn:L50; rewrite Z.gtb_ltb in L50.
    + apply Z.ltb_lt in L50. cbn. split; [discriminate | lia].
    + apply Z.ltb_ge in L50.
      destruct (match_name username); cbn; split; try discriminate;
        tauto.
Qed.

Lemma rstrip_ends_unspaced (s a : string) (c : ascii) :
  rstrip s = a ++ String c "" -> is_space c = false.
Proof.
  revert a; induction s as [|x t IH]; intros a H.
  - destruct a; discriminate.
  - cbn [rstrip] in H. destruct (rstrip t) as [|y t'] eqn:E.
    + destruct (is_space x) eqn:Hx; [destruct a; discriminate|].
      destruct a as [|z a]; [now injection H as <-|].
      injection H as _ H. destruct a; discriminate.
    + destruct a as [|z a]; [discriminate|].
      injection H as _ H. now apply (IH a).
Qed.

Lemma validate_username_true (username : string) :
  fst (validate_username username) = true ->
  (3 <= len username <= 50)%Z /\ match_name username = true.
Proof.
  unfold validate_username.
  destruct (len username <? 3)%Z eqn:L3; [discriminate|].
  destruct (len username >? 50)%Z eqn:L50; [discriminate|].
  destruct (match_name username); [|discriminate].
  intros _. apply Z.ltb_ge in L3. rewrite Z.gtb_ltb in L50.
  apply Z.ltb_ge in L50. split; [lia | reflexivity].
Qed.

Lemma validate_password_true (password : string) :
  fst (validate_password password) = true ->
  str_in "\d" password = true.
Proof.
  unfold validate_password. rewrite search_backslash_d.
  destruct (len password <? 8)%Z; [discriminate|].
  destruct (re_search pattern_capital password); [|discriminate].
  destruct (re_search pattern_small password); [|discriminate].
  now destruct (str_in "\d" password).
Qed.

(** X9.  When the checks of [signup] pass, the username it goes on with has
    3 to 50 characters, all of them ASCII letters, digits or underscores:
    it has been stripped, so the line feed that [validate_username] lets
    through at the end cannot be there.  The e-mail address is the stripped
    and lower-cased one and has passed [validate_email]; the two password
    fields of the body are equal, and the password holds a backslash
    followed by d. *)
Theorem signup_checks_passed (validate_email : string -> bool)
    (data : string -> option string) (fields : signup_fields) :
  signup_checks validate_email data = inr fields ->
  (3 <= len (su_username fields) <= 50)%Z
  /\ all_chars is_name_char (su_username fields) = true
  /\ su_email fields = lower (strip (get_or_empty data "email"))
  /\ validate_email (su_email fields) = true
  /\ get_or_empty data "password" = su_password fields
  /\ get_or_empty data "confirm_password" = su_password fields
  /\ exists a b, su_password fields = a ++ "\d" ++ b.
Proof.
  unfold signup_checks.
  destruct (first_missing data required_fields); [discriminate|].
  destruct (_ =? _)%string eqn:Epw; [|discriminate]. cbn [negb].
  apply String.eqb_eq in Epw.
  destruct (validate_username _) as [uv um] eqn:Eu.
  destruct uv; [|discriminate]. cbn [negb].
  destruct (validate_email _) eqn:Ee; [|discriminate]. cbn [negb].
  destruct (validate_password _) as [pv pm] eqn:Ep.
  destruct pv; [|discriminate]. cbn [negb].
  intros H. injection H as <-. cbn [su_username su_email su_password].
  destruct (validate_username_true (strip (get_or_empty data "username")))
    as [Hlen Hname]; [now rewrite Eu|].
  split; [exact Hlen|]. split.
  - apply match_name_iff in Hname.
    destruct Hname as (name & _ & Hn & [E|E]); [now rewrite E|].
    unfold strip in E. apply rstrip_ends_unspaced in E. discriminate E.
  - repeat split; try assumption; try (symmetry; assumption).
    apply (proj1 (str_in_iff "\d" (get_or_empty data "password"))).
    apply validate_password_true. now rewrite Ep.
Qed.

Lemma signup_checks_passed_witness :
  signup_checks (fun _ => true)
    (body [ ("username", " ada_1815 "); ("email", " Ada@Example.org");
            ("first_name", "Ada"); ("last_name", "Lovelace");
            ("password", "Engine\d1"); ("confirm_password", "Engine\d1") ])
  = inr {| su_username := "ada_1815"; su_email := "ada@example.org";
           su_first_name := "Ada"; su_last_name := "Lovelace";
           su_other_name := ""; su_password := "Engine\d1" |}
  /\ all_chars is_name_char "ada_1815" = true.
Proof.
  split; [reflexivity|].
  apply (signup_checks_passed (fun _ => true)
           (body [ ("username", " ada_1815 "); ("email", " Ada@Example.org");
                   ("first_name", "Ada"); ("last_name", "Lovelace");
                   ("password", "Engine\d1");
                   ("confirm_password", "Engine\d1") ])
           {| su_username := "ada_1815"; su_email := "ada@example.org";
              su_first_name := "Ada"; su_last_name := "Lovelace";
              su_other_name := ""; su_password := "Engine\d1" |}).
  reflexivity.
Defined.

(** ** More on the gates and the assembler *)

Lemma lower_split (q x y : string) :
  lower q = x ++ y ->
  exists q1 q2, q = q1 ++ q2 /\ lower q1 = x /\ lower q2 = y.
Proof.
  revert q; induction x as [|c x IH]; intros q H.
  - now exists "", q.
  - destruct q as [|d q]; [discriminate|]. cbn in H. injection H as Hc H.
    destruct (IH q H) as (q1 & q2 & -> & H1 & H2).
    exists (String d q1), q2. cbn. now rewrite Hc, H1.
Qed.

Lemma case_variant_lower (s : string) : case_variant (lower s) s.
Proof.
  induction s as [|c s IH]; [constructor|].
  cbn [lower]. constructor; [|exact IH].
  unfold lower_char. destruct (is_capital c) eqn:E; [now apply to_capital|].
  apply same_char.
Qed.

(** X10.  The verdict on a question is NON_ACADEMIC exactly when the
    question contains a keyword of the non-academic set, up to the case of
    its letters.  The academic keywords and the structural patterns never
    change the verdict. *)
Theorem non_academic_keywords_decide (question : string) :
  is_academic_question question = false
  <-> exists keyword before found after,
        In keyword non_academic_keywords
        /\ question = before ++ found ++ after
        /\ case_variant keyword found.
Proof.
  rewrite is_academic_question_eq, negb_false_iff, existsb_exists. split.
  - intros (keyword & Hin & H). apply str_in_iff in H.
    destruct H as (a & b & H).
    destruct (lower_split _ _ _ H) as (before & rest & -> & _ & Hrest).
    destruct (lower_split _ _ _ Hrest) as (found & after & -> & Hfound & _).
    exists keyword, before, found, after.
    split; [exact Hin|]. split; [reflexivity|].
    rewrite <- Hfound. apply case_variant_lower.
  - intros (keyword & before & found & after & Hin & -> & Hcase).
    exists keyword. split; [exact Hin|].
    rewrite !lower_app, <- (lower_case_variant keyword found Hcase).
    pose proof non_academic_keywords_are_lower as L.
    rewrite Forall_forall in L. rewrite (L keyword Hin).
    apply str_in_app.
Qed.

Lemma list_slice_from_short (chat_history : list message) :
  List.length chat_history <= 10 ->
  list_slice_from chat_history (-10) = chat_history.
Proof.
  intros H. unfold list_slice_from, slice_index.
  change (-10 <? 0)%Z with true. cbv iota.
  now replace (Z.to_nat _) with 0 by lia.
Qed.

(** what [generate_response] does once the question has passed and the
    extracts do not stop it *)
Lemma generate_response_run model (question : string)
    (document_contents : list string) (chat_history : list message)
    (w : world) :
  is_academic_question question = true ->
  document_contents = []
  \/ chosen true document_contents (verdicts model document_contents w) <> [] ->
  let prompt :=
    system_prompt
    ++ documents_section
         (chosen true document_contents (verdicts model document_contents w))
    ++ history_section (list_slice_from chat_history (-10))
    ++ "\n\nCurrent Question: " ++ question
    ++ "\n\nPlease provide a comprehensive, academic response:" in
  let w1 := with_calls w (map classifier_prompt document_contents) in
  generate_response model question document_contents chat_history w
  = (match model (calls w1) prompt with
     | Reply text => GenOk text true
     | Failure e => GenError ("Error generating response: " ++ e)
     end,
     with_calls w1 [prompt]).
Proof.
  intros Hq Hdocs prompt w1.
  assert (Hh : match chat_history with
               | [] => ""
               | _ => "\n\nPrevious Conversation:"
                      ++ String.concat ""
                           (map history_part (list_slice_from chat_history (-10)))
               end
               = history_section (list_slice_from chat_history (-10))).
  { destruct chat_history as [|m h]; [reflexivity|].
    unfold history_section.
    destruct (list_slice_from (m :: h) (-10)) as [|m' h'] eqn:E;
      [|reflexivity].
    exfalso. unfold list_slice_from, slice_index in E.
    change (-10 <? 0)%Z with true in E. cbv iota in E.
    apply (f_equal (@List.length _)) in E. rewrite length_skipn in E.
    cbn [List.length] in E. lia. }
  unfold generate_response. rewrite Hq. cbn [negb].
  destruct document_contents as [|d rest].
  - rewrite complete_and_generate_run. rewrite Hh. subst prompt w1.
    cbn [map]. rewrite with_calls_nil.
    unfold chosen. cbn [verdicts combine filter map documents_section].
    rewrite concat_cons. change (String.concat "" []) with "".
    rewrite app_nil_r_str. reflexivity.
  - destruct Hdocs as [Hdocs|Hdocs]; [discriminate|].
    unfold bind. rewrite classify_documents_run. cbn [app].
    fold w1. subst prompt.
    destruct (chosen true (d :: rest) _) as [|a acad] eqn:A; [now elim Hdocs|].
    destruct (chosen false (d :: rest) _) as [|x non]; cbv beta iota;
      rewrite complete_and_generate_run, Hh; cbn [app];
      rewrite !concat_cons; unfold documents_section;
      now rewrite ?app_assoc_str.
Qed.

(** X11.  With an academic question, extracts of which at least one is
    academic (or no extract), and a history of at most ten turns,
    [generate_response] sends one prompt after the classifier prompts: the
    system text, the academic extracts alone, the whole history, the
    question.  It returns the reply as it is, with [is_academic] true, or
    the failure of that call; a history that is empty leaves no section. *)
Theorem short_history_is_sent_whole model (question : string)
    (document_contents : list string) (chat_history : list message)
    (w : world) :
  is_academic_question question = true ->
  List.length chat_history <= 10 ->
  document_contents = []
  \/ chosen true document_contents (verdicts model document_contents w) <> [] ->
  let prompt :=
    system_prompt
    ++ documents_section
         (chosen true document_contents (verdicts model document_contents w))
    ++ history_section chat_history
    ++ "\n\nCurrent Question: " ++ question
    ++ "\n\nPlease provide a comprehensive, academic response:" in
  let w1 := with_calls w (map classifier_prompt document_contents) in
  generate_response model question document_contents chat_history w
  = (match model (calls w1) prompt with
     | Reply text => GenOk text true
     | Failure e => GenError ("Error generating response: " ++ e)
     end,
     with_calls w1 [prompt]).
Proof.
  intros Hq Hlen Hdocs.
  pose proof (generate_response_run model question document_contents
                chat_history w Hq Hdocs) as H.
  now rewrite (list_slice_from_short chat_history Hlen) in H.
Qed.

Lemma short_history_is_sent_whole_witness :
  generate_response (always (Reply "Entropy is a measure of disorder."))
    "What is entropy?" [] first_two_turns (fresh_world empty_db)
  = (GenOk "Entropy is a measure of disorder." true,
     with_calls (fresh_world empty_db)
       [ system_prompt
         ++ "\n\nPrevious Conversation:\nUser: turn 1\nAssistant: turn 2"
         ++ "\n\nCurrent Question: What is entropy?"
         ++ "\n\nPlease provide a comprehensive, academic response:" ]).
Proof.
  etransitivity.
  - apply (short_history_is_sent_whole
             (always (Reply "Entropy is a measure of disorder."))
             "What is entropy?" [] first_two_turns (fresh_world empty_db)).
    + reflexivity.
    + cbn. lia.
    + now left.
  - vm_compute. reflexivity.
Defined.

Lemma verdicts_when_down model (docs : list string) :
  (forall log prompt, exists e, model log prompt = Failure e) ->
  forall w, chosen true docs (verdicts model docs w) = docs.
Proof.
  intros Hdown. induction docs as [|d rest IH]; intros w; [reflexivity|].
  rewrite verdicts_cons, is_academic_content_run.
  destruct (Hdown (calls w) (classifier_prompt d)) as [e ->].
  unfold chosen in *. cbn. now rewrite IH.
Qed.

(** X12.  When every call of the model fails, an academic question gets a
    failure result from [generate_response], with or without extracts: the
    failed classifications count as academic, so the "document not
    academic" refusal is not given, and the model has been called once for
    each extract and once for the answer. *)
Theorem outage_is_reported_as_failure model (question : string)
    (document_contents : list string) (chat_history : list message)
    (w : world) :
  (forall log prompt, exists e, model log prompt = Failure e) ->
  is_academic_question question = true ->
  (exists e,
     fst (generate_response model question document_contents chat_history w)
     = GenError ("Error generating response: " ++ e))
  /\ List.length
       (calls (snd (generate_response model question document_contents
                      chat_history w)))
     = List.length (calls w) + List.length document_contents + 1.
Proof.
  intros Hdown Hq.
  assert (Hdocs : document_contents = []
                  \/ chosen true document_contents
                       (verdicts model document_contents w) <> []).
  { destruct document_contents as [|d rest]; [now left | right].
    now rewrite (verdicts_when_down model (d :: rest) Hdown w). }
  rewrite (generate_response_run model question document_contents
             chat_history w Hq Hdocs).
  cbn [fst snd]. split.
  - match goal with
    | |- context [model ?l ?p] => destruct (Hdown l p) as [e ->]
    end. now exists e.
  - unfold with_calls. cbn [calls].
    rewrite !List.length_app, length_map. cbn [List.length]. lia.
Qed.

Lemma outage_is_reported_as_failure_witness :
  fst (generate_response unreachable_model "What is entropy?"
         ["my resume"] [] (fresh_world empty_db))
  = GenError "Error generating response: 503 unavailable".
Proof.
  destruct (outage_is_reported_as_failure unreachable_model "What is entropy?"
              ["my resume"] [] (fresh_world empty_db))
    as [[e He] _].
  - intros log prompt. now exists "503 unavailable".
  - reflexivity.
  - vm_compute. reflexivity.
Defined.

(** X13.  Whatever the question, the extracts and the model,
    [generate_response] changes nothing but the log of model calls: it
    sends no request to the database, and it calls the model at most once
    for each extract and once more, not at all when the question is
    refused. *)
Theorem generate_response_only_calls_the_model model (question : string)
    (document_contents : list string) (chat_history : list message)
    (w : world) :
  exists prompts,
    snd (generate_response model question document_contents chat_history w)
    = with_calls w prompts
    /\ List.length prompts <= List.length document_contents + 1
    /\ (is_academic_question question = false -> prompts = []).
Proof.
  unfold generate_response.
  destruct (is_academic_question question) eqn:Hq; cbn [negb].
  - destruct document_contents as [|d rest].
    + rewrite complete_and_generate_run. cbn [snd].
      eexists. split; [reflexivity|]. split; [cbn; lia | discriminate].
    + unfold bind. rewrite classify_documents_run. cbn [app].
      destruct (chosen false _ _), (chosen true _ _); cbv beta iota;
        try rewrite complete_and_generate_run; unfold ret; cbn [snd];
        rewrite ?with_calls_app;
        (eexists; split; [reflexivity|]; split; [|discriminate]);
        rewrite ?List.length_app, length_map; cbn [List.length]; lia.
  - exists []. split; [now rewrite with_calls_nil|]. split; [cbn; lia|].
    reflexivity.
Qed.

(** ** More on the message route *)

Section RouteRuns.

Variable model : list string -> string -> outcome.
Variable db_fault : nat -> option string.

Lemma get_chat_by_id_run (chat_id user_id : string) (w : world) :
  get_chat_by_id db_fault chat_id user_id w
  = (match db_fault (requests w) with
     | Some e => Err e
     | None =>
         match filter (owned chat_id user_id) (chats (db w)) with
         | c :: _ => Ok c
         | [] => Err "Chat not found"
         end
     end,
     ticked 1 w).
Proof.
  unfold get_chat_by_id, bind, select, request, ret, set_db, ticked, owned.
  destruct (db_fault (requests w)); [reflexivity|].
  destruct (filter _ _); reflexivity.
Qed.



Lemma get_chat_messages_run (chat_id user_id : string) (w : world) :
  get_chat_messages db_fault chat_id user_id w
  = match fst (get_chat_by_id db_fault chat_id user_id w) with
    | Err e => (Err e, ticked 1 w)
    | Ok _ =>
        (match db_fault (S (requests w)) with
         | Some e => Err e
         | None => Ok (order_by m_message_order
                         (filter (in_chat chat_id) (messages (db w))))
         end,
         ticked 2 w)
    end.
Proof.
  unfold get_chat_messages, bind. rewrite get_chat_by_id_run. cbn [fst].
  destruct (match db_fault (requests w) with Some _ => _ | None => _ end);
    [|reflexivity].
  unfold select, request, ret, set_db, ticked, in_chat. cbn.
  destruct (db_fault (S (requests w))); reflexivity.
Qed.




End RouteRuns.

(** *** Sorting by a key *)

Lemma insert_by_In {A} (key : A -> Z) (x y : A) (l : list A) :
  In y (insert_by key x l) <-> y = x \/ In y l.
Proof.
  induction l as [|z l IH]; cbn.
  - intuition congruence.
  - destruct (key x <=? key z)%Z; cbn; rewrite ?IH; intuition congruence.
Qed.

Lemma order_by_In {A} (key : A -> Z) (y : A) (l : list A) :
  In y (order_by key l) <-> In y l.
Proof.
  induction l as [|x l IH]; [reflexivity|].
  unfold order_by in *. cbn [fold_right]. rewrite insert_by_In, IH. cbn.
  intuition congruence.
Qed.





Section RouteFacts.

Variable model : list string -> string -> outcome.
Variable db_fault : nat -> option string.





End RouteFacts.



Section RouteOutcomes.

Variable model : list string -> string -> outcome.
Variable db_fault : nat -> option string.









(** X20.  [get_chat_messages] returns rows only for a chat that the user
    owns under this id, and the rows it returns are the messages of that
    chat, all of them and no other. *)
Theorem messages_go_to_the_owner (chat_id user_id : string) (w w' : world)
    (rows : list message) :
  get_chat_messages db_fault chat_id user_id w = (Ok rows, w') ->
  (exists c, In c (chats (db w)) /\ c_id c = chat_id /\ c_user_id c = user_id)
  /\ forall m, In m rows
               <-> In m (messages (db w)) /\ m_chat_id m = chat_id.
Proof.
  rewrite get_chat_messages_run, get_chat_by_id_run. cbn [fst].
  destruct (db_fault (requests w)); [discriminate|].
  destruct (filter (owned chat_id user_id) (chats (db w))) as [|c l] eqn:E;
    [discriminate|].
  destruct (db_fault (S (requests w))); [discriminate|].
  intros H. injection H as <- _. split.
  - assert (Hc : In c (filter (owned chat_id user_id) (chats (db w))))
      by (rewrite E; now left).
    apply filter_In in Hc. destruct Hc as [Hc Ho].
    unfold owned in Ho. apply andb_true_iff in Ho. destruct Ho as [O1 O2].
    apply String.eqb_eq in O1. apply String.eqb_eq in O2. now exists c.
  - intros m. rewrite order_by_In, filter_In. unfold in_chat.
    now rewrite String.eqb_eq.
Qed.

End RouteOutcomes.




Lemma messages_go_to_the_owner_witness :
  get_chat_messages no_fault "c1" "u1" (fresh_world two_turn_db)
  = (Ok first_two_turns, ticked 2 (fresh_world two_turn_db))
  /\ exists c, In c (chats two_turn_db) /\ c_id c = "c1" /\ c_user_id c = "u1".
Proof.
  split; [vm_compute; reflexivity|].
  apply (messages_go_to_the_owner no_fault "c1" "u1" (fresh_world two_turn_db)
           (ticked 2 (fresh_world two_turn_db)) first_two_turns).
  vm_compute. reflexivity.
Defined.

(** ** Two edges *)

Lemma rstrip_keeps_end (a : string) (c : ascii) :
  is_space c = false -> rstrip (a ++ String c "") = a ++ String c "".
Proof.
  intros Hc. induction a as [|x t IH].
  - cbn. now rewrite Hc.
  - cbn [append rstrip]. rewrite IH. now destruct t.
Qed.

Lemma strip_keeps_end (a : string) :
  exists a', strip (a ++ "\n") = a' ++ "\n".
Proof.
  unfold strip.
  assert (L : exists a', lstrip (a ++ "\n") = a' ++ "\n").
  { induction a as [|c t IH].
    - now exists "".
    - cbn [append lstrip]. destruct (is_space c); [exact IH|].
      now exists (String c t). }
  destruct L as (a' & ->). exists a'.
  change (a' ++ "\n") with (a' ++ String "\" (String "n" "")).
  replace (a' ++ String "\" (String "n" ""))
    with ((a' ++ String "\" "") ++ String "n" "")
    by now rewrite app_assoc_str.
  now apply rstrip_keeps_end.
Qed.

Lemma joined_paragraphs_end (paragraphs : list string) :
  paragraphs <> [] ->
  exists a,
    String.concat "" (map (fun text => text ++ "\n") paragraphs) = a ++ "\n".
Proof.
  induction paragraphs as [|p rest IH]; [now intros H|]. intros _.
  cbn [map]. rewrite concat_cons.
  destruct rest as [|q rest].
  - exists p. cbn [map]. change (String.concat "" []) with "".
    now rewrite app_nil_r_str.
  - destruct (IH ltac:(discriminate)) as (a & ->).
    exists ((p ++ "\n") ++ a). symmetry. apply app_assoc_str.
Qed.

Section DocxEdge.

Variable fitz_pages : list Byte.byte -> string + list string.
Variable docx_paragraphs : list Byte.byte -> string + list string.
Variable pptx_slides : list Byte.byte -> string + list (list (option string)).
Variable pil_image : list Byte.byte -> string + image_info.

(** X21.  A DOCX file with at least one paragraph is never taken for a file
    without content, even when all its paragraphs are empty: each paragraph
    is followed by the two characters backslash and n, which [strip] does
    not remove, so the extracted content ends with them and the "No
    extractable content" notice is not used. *)
Theorem docx_is_never_blank (file_data : list Byte.byte) (filename : string)
    (paragraphs : list string) :
  get_file_type filename = "docx" ->
  docx_paragraphs file_data = inr paragraphs ->
  paragraphs <> [] ->
  exists text,
    strip (String.concat "" (map (fun text => text ++ "\n") paragraphs))
    = text ++ "\n"
    /\ extract_content fitz_pages docx_paragraphs pptx_slides pil_image
         file_data filename
       = Extracted (text ++ "\n") "docx" filename.
Proof.
  intros Ht Hd Hne.
  destruct (joined_paragraphs_end paragraphs Hne) as (a & Ha).
  destruct (strip_keeps_end a) as (text & Hs).
  exists text. rewrite Ha. split; [exact Hs|].
  unfold extract_content, extract_text_from_docx. rewrite Ht, Hd, Ha, Hs.
  cbn [String.eqb Ascii.eqb Bool.eqb].
  destruct (strip_keeps_end text) as (text' & ->).
  replace ((text ++ "\n" =? "") || (text' ++ "\n" =? ""))%string with false;
    [reflexivity|].
  symmetry. apply orb_false_iff.
  split; apply String.eqb_neq; [destruct text | destruct text']; discriminate.
Qed.

End DocxEdge.

Lemma docx_is_never_blank_witness :
  extract_content (reads_pages []) (reads_pages [""; " "]) (reads_slides [])
    (reads_image a_png) [] "empty.docx"
  = Extracted "\n \n" "docx" "empty.docx".
Proof.
  destruct (docx_is_never_blank (reads_pages []) (reads_pages [""; " "])
              (reads_slides []) (reads_image a_png) [] "empty.docx" [""; " "])
    as (text & Hs & He).
  - reflexivity.
  - reflexivity.
  - discriminate.
  - rewrite He, <- Hs. vm_compute. reflexivity.
Defined.



(** ** The accounts *)

Lemma filter_head {T} (f : T -> bool) (l : list T) (x : T) (rest : list T) :
  filter f l = x :: rest -> In x l /\ f x = true.
Proof.
  intros H. apply filter_In. rewrite H. now left.
Qed.

Lemma filter_nil_none {T} (f : T -> bool) (l : list T) (x : T) :
  filter f l = [] -> In x l -> f x = false.
Proof.
  intros H Hin. destruct (f x) eqn:E; [|reflexivity].
  assert (Hx : In x (filter f l)) by (apply filter_In; now split).
  rewrite H in Hx. destruct Hx.
Qed.

Section AccountRuns.

Variable db_fault : nat -> option string.

(** a lookup of a user asks once and writes nothing; the user it finds is
    in the table under the value asked for, and it finds one whenever there
    is one and the request runs *)
Lemma get_user_by_run (column : user -> string) (value : string)
    (w : accounts) :
  snd (get_user_by db_fault column value w) = asked_once w
  /\ (forall u, fst (get_user_by db_fault column value w) = Ok u ->
        In u (users w) /\ column u = value)
  /\ (forall u, db_fault (asked w) = None -> In u (users w) ->
        column u = value ->
        exists u', fst (get_user_by db_fault column value w) = Ok u')
  /\ (db_fault (asked w) = None ->
      (forall u, In u (users w) -> column u <> value) ->
      fst (get_user_by db_fault column value w) = Err "User not found").
Proof.
  unfold get_user_by, look, ask, abind, aret, asked_once.
  destruct (db_fault (asked w)) as [e|] eqn:F.
  - cbn. repeat split; try discriminate.
  - destruct (filter (fun u => (column u =? value)%string) (users w))
      as [|u0 rest] eqn:E; cbn.
    + split; [reflexivity|]. split; [discriminate|]. split.
      * intros u _ Hin Hc.
        pose proof (filter_nil_none _ _ u E Hin) as Hf. cbn in Hf.
        apply String.eqb_neq in Hf. contradiction.
      * reflexivity.
    + apply filter_head in E. destruct E as [Hin Hc].
      apply String.eqb_eq in Hc.
      split; [reflexivity|]. split.
      * intros u Hu. injection Hu as <-. now split.
      * split; [intros; now exists u0|].
        intros _ Hnone. destruct (Hnone u0 Hin Hc).
Qed.

End AccountRuns.

Section AccountFacts.

Variable db_fault : nat -> option string.
Variable fresh_id : nat -> string.
Variable hashpw : nat -> string -> string + string.
Variable checkpw : string -> string -> string + bool.
Variable utcnow : nat -> Z.
Variable token_urlsafe : nat -> string.
Variable validate_email : string -> bool.
Variable create_access_token : string -> string.

(** X23.  [login] hands out an access token only for a row of [users] that
    it found under the stripped login value (as the lower-cased address
    when the value passes for an e-mail address, as the username
    otherwise), whose stored hash [checkpw] accepts for the password of the
    body, and which is active.  The token is made for the id of that row,
    the answer carries the row without its hash, and the one request made
    wrote nothing. *)
Theorem login_needs_the_password (data : string -> option string)
    (w : accounts) (message : string) (pu : public_user) (token : string)
    (status : Z) :
  fst (login db_fault checkpw validate_email create_access_token data w)
  = AuthUser message pu token status ->
  exists given password u,
    data "login" = Some given /\ data "password" = Some password
    /\ In u (users w)
    /\ (if validate_email (strip given)
        then u_email u = lower (strip given)
        else u_username u = strip given)
    /\ checkpw password (u_password_hash u) = inr true
    /\ u_is_active u = true
    /\ pu = public u /\ token = create_access_token (u_id u)
    /\ status = 200%Z
    /\ snd (login db_fault checkpw validate_email create_access_token data w)
       = asked_once w.
Proof.
  unfold login.
  destruct (data "login") as [given|]; [|discriminate].
  destruct (data "password") as [password|]; [|discriminate].
  unfold abind, verify_password, aret.
  set (found := (if validate_email (strip given)
                 then get_user_by_email db_fault (lower (strip given))
                 else get_user_by_username db_fault (strip given)) w).
  assert (Hfound : snd found = asked_once w
            /\ forall u, fst found = Ok u ->
                 In u (users w)
                 /\ (if validate_email (strip given)
                     then u_email u = lower (strip given)
                     else u_username u = strip given)).
  { subst found. unfold get_user_by_email, get_user_by_username.
    destruct (validate_email (strip given));
      match goal with
      | |- context [get_user_by _ ?c ?v w] =>
          destruct (get_user_by_run db_fault c v w) as (Hs & Hu & _)
      end; split; auto. }
  destruct found as [[u|e] w1]; cbn [fst snd] in *; [|discriminate].
  destruct Hfound as [Hs Hu]. destruct (Hu u eq_refl) as [Hin Hby].
  destruct (checkpw password (u_password_hash u)) as [e|[|]] eqn:C;
    [discriminate| |discriminate].
  destruct (u_is_active u) eqn:Act; cbn [negb fst snd]; [|discriminate].
  intros H. injection H as _ <- <- <-.
  exists given, password, u. repeat split; auto.
Qed.

(** a password is written for the hash of the moment, in every row of the
    id, and the update answers well only when there is such a row *)
Lemma update_user_password_run (user_id new_password : string)
    (w : accounts) :
  match hashpw (asked w) new_password with
  | inl e =>
      update_user_password db_fault hashpw user_id new_password w
      = (Err e, w)
  | inr hash =>
      match db_fault (asked w) with
      | Some e =>
          update_user_password db_fault hashpw user_id new_password w
          = (Err e, asked_once w)
      | None =>
          snd (update_user_password db_fault hashpw user_id new_password w)
          = {| users := map (set_hash user_id hash) (users w);
               tokens := tokens w; asked := S (asked w) |}
      end
  end.
Proof.
  unfold update_user_password, hash_password, abind, aret, ask, asked_once.
  destruct (hashpw (asked w) new_password) as [e|hash]; [reflexivity|].
  destruct (db_fault (asked w)) as [e|]; [reflexivity|].
  cbn. now destruct (filter _ _).
Qed.

(** X24.  [change_password] alters the table of users only when the body
    holds both passwords, [checkpw] accepts the current one for the stored
    hash of the caller's row, and the new one passes [validate_password];
    what changes then is the hash of the rows with the caller's id. *)
Theorem password_changes_only_when_verified (user_id : string)
    (data : string -> option string) (w : accounts) :
  users (snd (change_password db_fault hashpw checkpw user_id data w))
  <> users w ->
  exists current new u hash,
    data "current_password" = Some current
    /\ data "new_password" = Some new
    /\ In u (users w) /\ u_id u = user_id
    /\ checkpw current (u_password_hash u) = inr true
    /\ fst (validate_password new) = true
    /\ hashpw (S (asked w)) new = inr hash
    /\ users (snd (change_password db_fault hashpw checkpw user_id data w))
       = map (set_hash user_id hash) (users w).
Proof.
  unfold change_password.
  destruct (data "current_password") as [current|];
    [|intros H; now destruct H].
  destruct (data "new_password") as [new|]; [|intros H; now destruct H].
  unfold abind, verify_password, aret, get_user_by_id.
  destruct (get_user_by_run db_fault u_id user_id w) as (Hs & Hu & _).
  destruct (get_user_by db_fault u_id user_id w) as [[u|e] w1];
    cbn [fst snd] in *; subst w1; [|intros H; now destruct H].
  destruct (Hu u eq_refl) as [Hin Hid].
  destruct (checkpw current (u_password_hash u)) as [e|[|]] eqn:C;
    try (intros H; now destruct H).
  destruct (validate_password new) as [valid msg] eqn:V.
  destruct valid; cbn [negb]; [|intros H; now destruct H].
  pose proof (update_user_password_run user_id new (asked_once w)) as R.
  change (asked (asked_once w)) with (S (asked w)) in R.
  destruct (hashpw (S (asked w)) new) as [e|hash] eqn:Hh.
  { rewrite R. intros H; now destruct H. }
  destruct (db_fault (S (asked w))) as [e|].
  { rewrite R. intros H; now destruct H. }
  destruct (update_user_password db_fault hashpw user_id new (asked_once w))
    as [[r|e] w2]; cbn [fst snd] in *; subst w2; intros _;
    exists current, new, u, hash; repeat split; auto;
    now rewrite V.
Qed.

(** X25.  [delete_account] removes rows of the table of users only when
    the body holds a password that [checkpw] accepts for the stored hash of
    the caller's row; the rows that go are those with the caller's id. *)
Theorem account_goes_only_when_verified (user_id : string)
    (data : string -> option string) (w : accounts) :
  users (snd (delete_account db_fault checkpw user_id data w)) <> users w ->
  exists password u,
    data "password" = Some password
    /\ In u (users w) /\ u_id u = user_id
    /\ checkpw password (u_password_hash u) = inr true
    /\ users (snd (delete_account db_fault checkpw user_id data w))
       = filter (fun u => negb (u_id u =? user_id)%string) (users w).
Proof.
  unfold delete_account.
  destruct (data "password") as [password|]; [|intros H; now destruct H].
  unfold abind, verify_password, aret, get_user_by_id.
  destruct (get_user_by_run db_fault u_id user_id w) as (Hs & Hu & _).
  destruct (get_user_by db_fault u_id user_id w) as [[u|e] w1];
    cbn [fst snd] in *; subst w1; [|intros H; now destruct H].
  destruct (Hu u eq_refl) as [Hin Hid].
  destruct (checkpw password (u_password_hash u)) as [e|[|]] eqn:C;
    try (intros H; now destruct H).
  unfold delete_user, abind, aret, ask.
  change (asked (asked_once w)) with (S (asked w)).
  destruct (db_fault (S (asked w))) as [e|]; cbn;
    [intros H; now destruct H|].
  intros _. exists password, u. repeat split; auto.
Qed.

(** what a reset that did not answer with an error has gone through *)
Lemma reset_password_success (data : string -> option string)
    (w : accounts) :
  (forall e status,
     fst (reset_password db_fault hashpw utcnow data w)
     <> AuthError e status) ->
  exists token new t hash,
    data "token" = Some token /\ data "new_password" = Some new
    /\ fst (validate_password new) = true
    /\ In t (tokens w) /\ t_token t = token /\ t_used t = false
    /\ (utcnow (S (asked w)) >? t_expires_at t)%Z = false
    /\ hashpw (S (asked w)) new = inr hash
    /\ users (snd (reset_password db_fault hashpw utcnow data w))
       = map (set_hash (t_user_id t) hash) (users w)
    /\ tokens (snd (reset_password db_fault hashpw utcnow data w))
       = match db_fault (S (S (asked w))) with
         | Some _ => tokens w
         | None => map (set_used token) (tokens w)
         end.
Proof.
  unfold reset_password.
  destruct (data "token") as [token|];
    [|intros H; now destruct (H _ _ eq_refl)].
  destruct (data "new_password") as [new|];
    [|intros H; now destruct (H _ _ eq_refl)].
  destruct (validate_password new) as [valid msg] eqn:V.
  destruct valid; cbn [negb]; [|intros H; now destruct (H _ _ eq_refl)].
  unfold abind at 1. unfold verify_password_reset_token, look, ask, abind, aret.
  destruct (db_fault (asked w)) as [e|] eqn:F0;
    [intros H; now destruct (H _ _ eq_refl)|].
  destruct (filter (fun t => (t_token t =? token)%string && negb (t_used t))
              (tokens w)) as [|t rest] eqn:E;
    [intros H; now destruct (H _ _ eq_refl)|].
  apply filter_head in E. destruct E as [Hin Ht].
  apply andb_true_iff in Ht. destruct Ht as [Htok Hused].
  apply String.eqb_eq in Htok. apply negb_true_iff in Hused.
  cbn [asked].
  destruct (utcnow (S (asked w)) >? t_expires_at t)%Z eqn:Late;
    [intros H; now destruct (H _ _ eq_refl)|].
  match goal with
  | |- context [update_user_password _ _ ?i ?p ?w1] =>
      pose proof (update_user_password_run i p w1) as R
  end.
  cbn [asked] in R.
  destruct (hashpw (S (asked w)) new) as [e|hash] eqn:Hh.
  { rewrite R. intros H; now destruct (H _ _ eq_refl). }
  destruct (db_fault (S (asked w))) as [e|].
  { rewrite R. intros H; now destruct (H _ _ eq_refl). }
  match goal with
  | |- context [update_user_password _ _ ?i ?p ?w1] =>
      destruct (update_user_password db_fault hashpw i p w1) as [[r|e] w2]
  end; cbn [fst snd] in *; subst w2;
    [|intros H; now destruct (H _ _ eq_refl)].
  unfold mark_password_reset_token_used, abind, aret, ask. cbn [asked].
  intros _. exists token, new, t, hash.
  repeat split; auto; try (now rewrite V);
    destruct (db_fault (S (S (asked w)))); reflexivity.
Qed.

(** X26.  [reset_password] answers that the password was reset only when
    the table of tokens holds a row with the token of the body that is not
    marked used and whose hour has not passed when it is looked up, and the
    new password passes [validate_password]; the hash that is then written
    goes to the rows of the user that the first such token names. *)
Theorem reset_needs_a_live_token (data : string -> option string)
    (w : accounts) (message : string) (status : Z) :
  fst (reset_password db_fault hashpw utcnow data w)
  = AuthMessage message status ->
  exists token new t hash,
    data "token" = Some token /\ data "new_password" = Some new
    /\ fst (validate_password new) = true
    /\ In t (tokens w) /\ t_token t = token /\ t_used t = false
    /\ (utcnow (S (asked w)) <=? t_expires_at t)%Z = true
    /\ hashpw (S (asked w)) new = inr hash
    /\ users (snd (reset_password db_fault hashpw utcnow data w))
       = map (set_hash (t_user_id t) hash) (users w).
Proof.
  intros H.
  destruct (reset_password_success data w)
    as (token & new & t & hash & H1 & H2 & H3 & H4 & H5 & H6 & H7 & H8
        & H9 & _).
  { intros e s. rewrite H. discriminate. }
  exists token, new, t, hash. repeat split; auto.
  rewrite Z.gtb_ltb in H7. apply Z.ltb_ge in H7. now apply Z.leb_le.
Qed.

(** X27.  A token is good for one reset: once [reset_password] has answered
    well and its last request, the one that marks the token, has run, a
    body with the same token gets an error, whatever else it holds and
    however many requests were made in between. *)
Theorem spent_token_is_refused (data data' : string -> option string)
    (w w' : accounts) (message token : string) (status : Z) :
  fst (reset_password db_fault hashpw utcnow data w)
  = AuthMessage message status ->
  db_fault (S (S (asked w))) = None ->
  data "token" = Some token ->
  data' "token" = Some token ->
  tokens w' = tokens (snd (reset_password db_fault hashpw utcnow data w)) ->
  exists e status',
    fst (reset_password db_fault hashpw utcnow data' w')
    = AuthError e status'.
Proof.
  intros H Hmark Ht Ht' Hw'.
  destruct (reset_password_success data w)
    as (token0 & _ & _ & _ & H1 & _ & _ & _ & _ & _ & _ & _ & _ & Htok).
  { intros e s. rewrite H. discriminate. }
  rewrite Ht in H1. injection H1 as <-. rewrite Hmark in Htok.
  destruct (fst (reset_password db_fault hashpw utcnow data' w'))
    as [e s|m s|m pu tk s] eqn:E; [now exists e, s| |].
  all: destruct (reset_password_success data' w')
         as (token1 & _ & t & _ & H1 & _ & _ & Hin & Hname & Hused & _);
       [intros e0 s0; rewrite E; discriminate|].
  all: rewrite Ht' in H1; injection H1 as <-.
  all: rewrite Hw', Htok in Hin; apply in_map_iff in Hin.
  all: destruct Hin as (t0 & <- & _); unfold set_used in Hname, Hused.
  all: destruct (t_token t0 =? token)%string eqn:Q;
         [discriminate Hused | apply String.eqb_neq in Q; contradiction].
Qed.

(** X28.  An account is created by [signup] only after its checks, and as
    one new row at the end of the table: it holds the stripped names, the
    stripped and lower-cased address, the hash that [hashpw] gave for the
    password and never the password itself, and it is active.  The answer
    has the status 201 and carries that row without the hash, with a token
    made for its id. *)
Theorem signup_stores_one_account (data : string -> option string)
    (w : accounts) (message : string) (pu : public_user) (token : string)
    (status : Z) :
  fst (signup db_fault fresh_id hashpw validate_email create_access_token
         data w)
  = AuthUser message pu token status ->
  exists fields hash row,
    signup_checks validate_email data = inr fields
    /\ hashpw (S (S (asked w))) (su_password fields) = inr hash
    /\ row = {| u_id := fresh_id (S (S (asked w)));
                u_username := su_username fields;
                u_email := su_email fields;
                u_first_name := su_first_name fields;
                u_last_name := su_last_name fields;
                u_other_name := su_other_name fields;
                u_password_hash := hash; u_is_active := true |}
    /\ users (snd (signup db_fault fresh_id hashpw validate_email
                     create_access_token data w))
       = users w +++ [row]
    /\ pu = public row /\ token = create_access_token (u_id row)
    /\ status = 201%Z.
Proof.
  destruct (signup db_fault fresh_id hashpw validate_email
              create_access_token data w) as [r w'] eqn:Run.
  cbn [fst snd]. intros ->. unfold signup in Run.
  destruct (signup_checks validate_email data) as [refusal|fields].
  { destruct refusal; discriminate. }
  unfold abind, get_user_by_username, get_user_by_email in Run.
  destruct (get_user_by_run db_fault u_username (su_username fields) w)
    as (Hs & _).
  destruct (get_user_by db_fault u_username (su_username fields) w)
    as [[u|e] w1]; cbn [fst snd] in *; subst w1; [discriminate|].
  destruct (get_user_by_run db_fault u_email (su_email fields) (asked_once w))
    as (Hs & _).
  destruct (get_user_by db_fault u_email (su_email fields) (asked_once w))
    as [[u|e'] w1]; cbn [fst snd] in *; subst w1; [discriminate|].
  unfold create_user, hash_password, abind, aret, ask in Run.
  change (asked (asked_once (asked_once w))) with (S (S (asked w))) in Run.
  destruct (hashpw (S (S (asked w))) (su_password fields)) as [e2|hash]
    eqn:Hh; [discriminate|].
  cbn in Run.
  destruct (db_fault (S (S (asked w)))) as [e2|]; cbn in Run;
    [discriminate|].
  injection Run as <- <- <- <- <-.
  eexists fields, hash, _. split; [reflexivity|]. split; [exact Hh|].
  split; [reflexivity|]. repeat split; reflexivity.
Qed.

(** X29.  While the database answers, [signup] refuses with the status 409
    a body whose username or address, cleaned the way the checks clean
    them, is that of a row of the table, and stores nothing. *)
Theorem signup_refuses_a_taken_name (data : string -> option string)
    (w : accounts) (fields : signup_fields) (u : user) :
  signup_checks validate_email data = inr fields ->
  (forall n, db_fault n = None) ->
  In u (users w) ->
  u_username u = su_username fields \/ u_email u = su_email fields ->
  exists e,
    fst (signup db_fault fresh_id hashpw validate_email create_access_token
           data w) = AuthError e 409
    /\ users (snd (signup db_fault fresh_id hashpw validate_email
                     create_access_token data w)) = users w.
Proof.
  intros Hc Hdb Hin Hsame.
  destruct (signup db_fault fresh_id hashpw validate_email
              create_access_token data w) as [r w'] eqn:Run.
  cbn [fst snd]. unfold signup in Run. rewrite Hc in Run.
  unfold abind, get_user_by_username, get_user_by_email, aret in Run.
  destruct (get_user_by_run db_fault u_username (su_username fields) w)
    as (Hs & _ & Hfound & _).
  destruct (get_user_by db_fault u_username (su_username fields) w)
    as [[u1|e] w1] eqn:G; cbn [fst snd] in *; subst w1.
  { injection Run as <- <-. eexists. split; reflexivity. }
  destruct Hsame as [Hname|Hmail].
  { destruct (Hfound u (Hdb _) Hin Hname) as (u' & Hu'). discriminate. }
  destruct (get_user_by_run db_fault u_email (su_email fields) (asked_once w))
    as (Hs & _ & Hfound' & _).
  destruct (get_user_by db_fault u_email (su_email fields) (asked_once w))
    as [[u1|e'] w1] eqn:G'; cbn [fst snd] in *; subst w1.
  { injection Run as <- <-. eexists. split; reflexivity. }
  destruct (Hfound' u (Hdb _) Hin Hmail) as (u' & Hu'). discriminate.
Qed.

(** X30.  While the database answers, the message of [forgot_password]
    tells whether the address is registered: for an address that passes
    [validate_email] it is the one about the link that has been sent
    exactly when a row of the table has the stripped and lower-cased
    address, and the one that starts with "If the email exists" when none
    has. *)
Theorem forgot_password_tells_registered (data : string -> option string)
    (w : accounts) (given : string) :
  data "email" = Some given ->
  validate_email (lower (strip given)) = true ->
  (forall n, db_fault n = None) ->
  ((exists u, In u (users w) /\ u_email u = lower (strip given)) ->
   fst (forgot_password db_fault utcnow token_urlsafe validate_email data w)
   = AuthMessage "Password reset link has been sent to your email" 200)
  /\ ((forall u, In u (users w) -> u_email u <> lower (strip given)) ->
      fst (forgot_password db_fault utcnow token_urlsafe validate_email
             data w)
      = AuthMessage
          "If the email exists, a password reset link has been sent" 200).
Proof.
  intros Hd Hv Hdb.
  destruct (forgot_password db_fault utcnow token_urlsafe validate_email
              data w) as [r w'] eqn:Run.
  cbn [fst]. unfold forgot_password in Run. rewrite Hd, Hv in Run.
  cbn [negb] in Run. unfold abind, get_user_by_email in Run.
  destruct (get_user_by_run db_fault u_email (lower (strip given)) w)
    as (Hs & _ & Hfound & Hnone).
  destruct (get_user_by db_fault u_email (lower (strip given)) w)
    as [[u1|e] w1] eqn:G; cbn [fst snd] in *; subst w1.
  - unfold create_password_reset_token, abind, aret, ask in Run.
    rewrite Hdb in Run. cbn in Run. injection Run as <- _. split.
    + reflexivity.
    + intros Hno. specialize (Hnone (Hdb _) Hno). discriminate.
  - injection Run as <- _. split.
    + intros (u & Hin & Hm).
      destruct (Hfound u (Hdb _) Hin Hm) as (u' & Hu'). discriminate.
    + reflexivity.
Qed.

End AccountFacts.

Lemma login_needs_the_password_witness :
  fst (login no_fault plain_check has_at_sign token_for
         (body [("login", " Ada@Example.org "); ("password", "Secret\d1")])
         one_account)
  = AuthUser "Login successful" (public ada) "jwt:u1" 200
  /\ exists given password u,
       body [("login", " Ada@Example.org "); ("password", "Secret\d1")]
         "login" = Some given
       /\ body [("login", " Ada@Example.org "); ("password", "Secret\d1")]
            "password" = Some password
       /\ In u (users one_account)
       /\ (if has_at_sign (strip given)
           then u_email u = lower (strip given)
           else u_username u = strip given)
       /\ plain_check password (u_password_hash u) = inr true
       /\ u_is_active u = true
       /\ public ada = public u /\ "jwt:u1" = token_for (u_id u)
       /\ 200%Z = 200%Z
       /\ snd (login no_fault plain_check has_at_sign token_for
                 (body [("login", " Ada@Example.org ");
                        ("password", "Secret\d1")]) one_account)
          = asked_once one_account.
Proof.
  split; [vm_compute; reflexivity|].
  apply (login_needs_the_password no_fault plain_check has_at_sign token_for
           (body [("login", " Ada@Example.org "); ("password", "Secret\d1")])
           one_account "Login successful").
  vm_compute. reflexivity.
Defined.

Lemma password_changes_only_when_verified_witness :
  map u_password_hash
    (users (snd (change_password no_fault plain_hash plain_check "u1"
                   (body [("current_password", "Secret\d1");
                          ("new_password", "Better\dPass")]) one_account)))
  = ["hash:Better\dPass"]
  /\ exists current new u hash,
       body [("current_password", "Secret\d1");
             ("new_password", "Better\dPass")] "current_password"
       = Some current
       /\ body [("current_password", "Secret\d1");
                ("new_password", "Better\dPass")] "new_password" = Some new
       /\ In u (users one_account) /\ u_id u = "u1"
       /\ plain_check current (u_password_hash u) = inr true
       /\ fst (validate_password new) = true
       /\ plain_hash (S (asked one_account)) new = inr hash
       /\ users (snd (change_password no_fault plain_hash plain_check "u1"
                        (body [("current_password", "Secret\d1");
                               ("new_password", "Better\dPass")])
                        one_account))
          = map (set_hash "u1" hash) (users one_account).
Proof.
  split; [vm_compute; reflexivity|].
  apply (password_changes_only_when_verified no_fault plain_hash plain_check
           "u1"
           (body [("current_password", "Secret\d1");
                  ("new_password", "Better\dPass")]) one_account).
  vm_compute. discriminate.
Defined.

Lemma account_goes_only_when_verified_witness :
  users (snd (delete_account no_fault plain_check "u1"
                (body [("password", "Secret\d1")]) one_account)) = []
  /\ exists password u,
       body [("password", "Secret\d1")] "password" = Some password
       /\ In u (users one_account) /\ u_id u = "u1"
       /\ plain_check password (u_password_hash u) = inr true
       /\ users (snd (delete_account no_fault plain_check "u1"
                        (body [("password", "Secret\d1")]) one_account))
          = filter (fun u => negb (u_id u =? "u1")%string)
              (users one_account).
Proof.
  split; [vm_compute; reflexivity|].
  apply (account_goes_only_when_verified no_fault plain_check "u1"
           (body [("password", "Secret\d1")]) one_account).
  vm_compute. discriminate.
Defined.

Lemma reset_needs_a_live_token_witness :
  fst (reset_password no_fault plain_hash noon
         (body [("token", "tok"); ("new_password", "Better\dPass")])
         one_account)
  = AuthMessage "Password reset successfully" 200
  /\ exists token new t hash,
       body [("token", "tok"); ("new_password", "Better\dPass")] "token"
       = Some token
       /\ body [("token", "tok"); ("new_password", "Better\dPass")]
            "new_password" = Some new
       /\ fst (validate_password new) = true
       /\ In t (tokens one_account) /\ t_token t = token
       /\ t_used t = false
       /\ (noon (S (asked one_account)) <=? t_expires_at t)%Z = true
       /\ plain_hash (S (asked one_account)) new = inr hash
       /\ users (snd (reset_password no_fault plain_hash noon
                        (body [("token", "tok");
                               ("new_password", "Better\dPass")])
                        one_account))
          = map (set_hash (t_user_id t) hash) (users one_account).
Proof.
  split; [vm_compute; reflexivity|].
  apply (reset_needs_a_live_token no_fault plain_hash noon
           (body [("token", "tok"); ("new_password", "Better\dPass")])
           one_account "Password reset successfully" 200).
  vm_compute. reflexivity.
Defined.

Lemma spent_token_is_refused_witness :
  fst (reset_password no_fault plain_hash noon
         (body [("token", "tok"); ("new_password", "Another\dPass")])
         (snd (reset_password no_fault plain_hash noon
                 (body [("token", "tok"); ("new_password", "Better\dPass")])
                 one_account)))
  = AuthError "Invalid token" 400
  /\ exists e status',
       fst (reset_password no_fault plain_hash noon
              (body [("token", "tok"); ("new_password", "Another\dPass")])
              (snd (reset_password no_fault plain_hash noon
                      (body [("token", "tok");
                             ("new_password", "Better\dPass")])
                      one_account)))
       = AuthError e status'.
Proof.
  split; [vm_compute; reflexivity|].
  apply (spent_token_is_refused no_fault plain_hash noon
           (body [("token", "tok"); ("new_password", "Better\dPass")])
           (body [("token", "tok"); ("new_password", "Another\dPass")])
           one_account
           (snd (reset_password no_fault plain_hash noon
                   (body [("token", "tok");
                          ("new_password", "Better\dPass")]) one_account))
           "Password reset successfully" "tok" 200).
  - vm_compute. reflexivity.
  - reflexivity.
  - reflexivity.
  - reflexivity.
  - reflexivity.
Defined.

Lemma signup_stores_one_account_witness :
  map u_username
    (users (snd (signup no_fault numbered_id plain_hash has_at_sign token_for
                   (body [("username", " grace "); ("email", "Grace@Example.org");
                          ("first_name", "Grace"); ("last_name", "Hopper");
                          ("password", "Cobol\dRules");
                          ("confirm_password", "Cobol\dRules")])
                   one_account)))
  = ["ada"; "grace"]
  /\ exists fields hash row,
       signup_checks has_at_sign
         (body [("username", " grace "); ("email", "Grace@Example.org");
                ("first_name", "Grace"); ("last_name", "Hopper");
                ("password", "Cobol\dRules");
                ("confirm_password", "Cobol\dRules")]) = inr fields
       /\ plain_hash (S (S (asked one_account))) (su_password fields)
          = inr hash
       /\ row = {| u_id := numbered_id (S (S (asked one_account)));
                   u_username := su_username fields;
                   u_email := su_email fields;
                   u_first_name := su_first_name fields;
                   u_last_name := su_last_name fields;
                   u_other_name := su_other_name fields;
                   u_password_hash := hash; u_is_active := true |}
       /\ users (snd (signup no_fault numbered_id plain_hash has_at_sign
                        token_for
                        (body [("username", " grace ");
                               ("email", "Grace@Example.org");
                               ("first_name", "Grace");
                               ("last_name", "Hopper");
                               ("password", "Cobol\dRules");
                               ("confirm_password", "Cobol\dRules")])
                        one_account))
          = users one_account +++ [row]
       /\ {| p_id := "u4"; p_username := "grace";
             p_email := "grace@example.org"; p_first_name := "Grace";
             p_last_name := "Hopper"; p_other_name := "" |} = public row
       /\ "jwt:u4" = token_for (u_id row)
       /\ 201%Z = 201%Z.
Proof.
  split; [vm_compute; reflexivity|].
  apply (signup_stores_one_account no_fault numbered_id plain_hash
           has_at_sign token_for
           (body [("username", " grace "); ("email", "Grace@Example.org");
                  ("first_name", "Grace"); ("last_name", "Hopper");
                  ("password", "Cobol\dRules");
                  ("confirm_password", "Cobol\dRules")])
           one_account "User created successfully").
  vm_compute. reflexivity.
Defined.

Lemma signup_refuses_a_taken_name_witness :
  exists e,
    fst (signup no_fault numbered_id plain_hash has_at_sign token_for
           (body [("username", "grace"); ("email", "ADA@example.org");
                  ("first_name", "Grace"); ("last_name", "Hopper");
                  ("password", "Cobol\dRules");
                  ("confirm_password", "Cobol\dRules")]) one_account)
    = AuthError e 409
    /\ users (snd (signup no_fault numbered_id plain_hash has_at_sign
                     token_for
                     (body [("username", "grace");
                            ("email", "ADA@example.org");
                            ("first_name", "Grace"); ("last_name", "Hopper");
                            ("password", "Cobol\dRules");
                            ("confirm_password", "Cobol\dRules")])
                     one_account))
       = users one_account.
Proof.
  apply (signup_refuses_a_taken_name no_fault numbered_id plain_hash
           has_at_sign token_for
           (body [("username", "grace"); ("email", "ADA@example.org");
                  ("first_name", "Grace"); ("last_name", "Hopper");
                  ("password", "Cobol\dRules");
                  ("confirm_password", "Cobol\dRules")]) one_account
           {| su_username := "grace"; su_email := "ada@example.org";
              su_first_name := "Grace"; su_last_name := "Hopper";
              su_other_name := ""; su_password := "Cobol\dRules" |} ada).
  - vm_compute. reflexivity.
  - reflexivity.
  - left. reflexivity.
  - right. reflexivity.
Defined.

Lemma forgot_password_tells_registered_witness :
  fst (forgot_password no_fault noon (fun _ => "tok2") has_at_sign
         (body [("email", " ADA@example.org")]) one_account)
  = AuthMessage "Password reset link has been sent to your email" 200
  /\ fst (forgot_password no_fault noon (fun _ => "tok2") has_at_sign
            (body [("email", "bob@example.org")]) one_account)
     = AuthMessage "If the email exists, a password reset link has been sent"
         200.
Proof.
  split.
  - apply (proj1 (forgot_password_tells_registered no_fault noon
                    (fun _ => "tok2") has_at_sign
                    (body [("email", " ADA@example.org")]) one_account
                    " ADA@example.org" eq_refl eq_refl (fun _ => eq_refl))).
    exists ada. split; [now left | reflexivity].
  - vm_compute. reflexivity.
Defined.
